(** * examples/simple_event_writer.py

    A shallow embedding of the [SimpleEventWriter] tool: its three methods
    [setup], [start] and [finish], the numpy array operations the event loop
    performs ([image.copy()], [~mask], [cleaned[~mask] = 0]), the [tqdm]
    wrapper around the event iteration, and the collaborators the tool is
    wired to (event source, calibrator, cleaning, parametrisation, table
    writer), which enter as an interface.

    Python objects that are mutated and may be shared (numpy arrays) live in
    a heap and are referred to by location; the tool's attributes
    ([self.event_source], [self.calibrator], [self.writer]) are fields of the
    state; exceptions are a result type, threaded together with the state by
    a small monad. *)

From Stdlib Require Import ZArith String Lia.
From stdpp Require Import base option list gmap strings infinite.

Local Open Scope string_scope.
Local Open Scope list_scope.
Local Open Scope nat_scope.

(** ** Exceptions and results *)

(** The exceptions a run can end with.  [KeyError], [AttributeError] and
    [IndexError] are raised by the Python operations written out in this
    file; [OSError] by opening a file; a [LibraryError] is whatever a
    collaborator raises. *)
Inductive Exception :=
  | KeyError
  | AttributeError
  | IndexError
  | OSError
  | LibraryError (msg : string).

Inductive result (A : Type) :=
  | Ok (a : A)
  | Raise (e : Exception).
Arguments Ok {A} a.
Arguments Raise {A} e.

(** ** Python's [~] on a [bool], and truth of an [int]

    [bool] is a subclass of [int]: [~b] is the bitwise complement of the
    integer [b], so [~True = -2] and [~False = -1]. *)
Definition py_invert (b : bool) : Z := Z.lnot (Z.b2z b).

(** [if z:] on an integer. *)
Definition truthy (z : Z) : bool := negb (z =? 0)%Z.

(** ** What the collaborators' records carry *)

(** The payload types of the toolkit: pixel intensities (floating point
    numbers, of which only the value [0] is used here), the raw and the
    simulation containers of an event, the Hillas parameter record, and the
    camera geometry with its [camera_name] attribute. *)
Class Payload := {
  pixel : Type;
  pixel_zero : pixel;
  R0Container : Type;
  MCContainer : Type;
  HillasParametersContainer : Type;
  CameraGeometry : Type;
  camera_name : CameraGeometry → string;
}.

Abbreviation loc := positive.

Section DataModel.
Context `{Payload}.

(** [subarray.tel[tel_id].camera.geometry] *)
Record CameraDescription := { geometry : CameraGeometry }.
Record TelescopeDescription := { camera : CameraDescription }.
Record SubarrayDescription := { tel : gmap nat TelescopeDescription }.

(** [event.dl0.tels_with_data], in iteration order. *)
Record DL0Container := { tels_with_data : list nat }.

(** [event.dl1.tel[tel_id].image]: a reference to a numpy array. *)
Record DL1CameraContainer := { image : loc }.
Record DL1Container := { dl1_tels : gmap nat DL1CameraContainer }.

Record Event := {
  r0 : R0Container;
  mc : MCContainer;
  dl0 : DL0Container;
  dl1 : DL1Container;
}.

(** An opened event source: the subarray it describes, its [max_events]
    trait ([None] when unset) and the events its iteration yields. *)
Record EventSource := {
  subarray : SubarrayDescription;
  max_events : option nat;
  events : list Event;
}.

Record CameraCalibrator := { cal_subarray : SubarrayDescription }.

(** The containers handed to [writer.write]. *)
Inductive Container :=
  | R0 (c : R0Container)
  | MC (c : MCContainer)
  | Hillas (p : HillasParametersContainer).

(** One appended row of a table file: the group and the table it went to,
    and the containers it was built from, in the order given. *)
Record H5Row := {
  row_group : string;
  row_table : string;
  row_containers : list Container;
}.

(** A table file is the sequence of its rows in the order written. *)
Local Abbreviation H5File := (list H5Row).

(** An [HDF5TableWriter] object. *)
Record HDF5TableWriter := {
  filename : string;
  group_name : string;
  is_open : bool;
}.

(** One refresh of the progress bar: description, items done, total. *)
Record ProgressLine := {
  bar_desc : string;
  bar_done : nat;
  bar_total : option nat;
}.

(** The traits of the tool ([infile], [outfile], [progress]). *)
Record Traits := {
  infile : string;
  outfile : string;
  progress : bool;
}.

(** The state a run works on: the files on disk, what was displayed and
    logged, the numpy arrays, and the attributes [setup] gives the tool. *)
Record State := {
  disk : gmap string H5File;
  display : list ProgressLine;
  log : list string;
  heap : gmap loc (list pixel);
  self_event_source : option EventSource;
  self_calibrator : option CameraCalibrator;
  self_writer : option HDF5TableWriter;
}.

Definition set_disk (d : gmap string H5File) (s : State) : State :=
  {| disk := d; display := display s; log := log s; heap := heap s;
     self_event_source := self_event_source s;
     self_calibrator := self_calibrator s; self_writer := self_writer s |}.
Definition set_display (d : list ProgressLine) (s : State) : State :=
  {| disk := disk s; display := d; log := log s; heap := heap s;
     self_event_source := self_event_source s;
     self_calibrator := self_calibrator s; self_writer := self_writer s |}.
Definition set_log (l : list string) (s : State) : State :=
  {| disk := disk s; display := display s; log := l; heap := heap s;
     self_event_source := self_event_source s;
     self_calibrator := self_calibrator s; self_writer := self_writer s |}.
Definition set_heap (h : gmap loc (list pixel)) (s : State) : State :=
  {| disk := disk s; display := display s; log := log s; heap := h;
     self_event_source := self_event_source s;
     self_calibrator := self_calibrator s; self_writer := self_writer s |}.
Definition set_event_source (e : option EventSource) (s : State) : State :=
  {| disk := disk s; display := display s; log := log s; heap := heap s;
     self_event_source := e;
     self_calibrator := self_calibrator s; self_writer := self_writer s |}.
Definition set_calibrator (c : option CameraCalibrator) (s : State) : State :=
  {| disk := disk s; display := display s; log := log s; heap := heap s;
     self_event_source := self_event_source s;
     self_calibrator := c; self_writer := self_writer s |}.
Definition set_writer (w : option HDF5TableWriter) (s : State) : State :=
  {| disk := disk s; display := display s; log := log s; heap := heap s;
     self_event_source := self_event_source s;
     self_calibrator := self_calibrator s; self_writer := w |}.

(** *** The monad: state, and exceptions that keep the state reached *)

Definition M (A : Type) : Type := State → result A * State.

Definition ret {A} (a : A) : M A := λ s, (Ok a, s).
Definition bind {A B} (m : M A) (k : A → M B) : M B :=
  λ s, match m s with
       | (Ok a, s') => k a s'
       | (Raise e, s') => (Raise e, s')
       end.
Definition lift {A} (r : result A) : M A := λ s, (r, s).
Definition modify (f : State → State) : M unit := λ s, (Ok tt, f s).

(** Reading an attribute that may not have been set: [AttributeError]. *)
Definition attr {A} (f : State → option A) : M A :=
  λ s, match f s with
       | Some a => (Ok a, s)
       | None => (Raise AttributeError, s)
       end.

(** Subscripting a mapping: [KeyError] on a missing key. *)
Definition getitem {A} (m : gmap nat A) (k : nat) : M A :=
  λ s, match m !! k with
       | Some a => (Ok a, s)
       | None => (Raise KeyError, s)
       end.
End DataModel.

Abbreviation H5File := (list H5Row).

Notation "x <- m ;; k" := (bind m (λ x, k))
  (at level 100, m at next level, right associativity, only parsing).
Notation "m ;; k" := (bind m (λ _, k))
  (at level 100, right associativity, only parsing).

(** ** numpy arrays *)

Section Numpy.
Context `{Payload}.

(** The contents of the array at [a].  A location that holds no array
    stands for a value that is not an array (an [image] left at [None]);
    using it as one raises. *)
Definition ndarray_read (a : loc) : M (list pixel) :=
  λ s, match heap s !! a with
       | Some px => (Ok px, s)
       | None => (Raise AttributeError, s)
       end.

(** [a.copy()]: a new array, at a location not in use, with the contents
    of [a]. *)
Definition ndarray_copy (a : loc) : M loc :=
  λ s, match heap s !! a with
       | Some px =>
           let c := fresh (dom (heap s)) in
           (Ok c, set_heap (<[c := px]> (heap s)) s)
       | None => (Raise AttributeError, s)
       end.

(** [~mask] on a boolean array: the element-wise negation, a new array. *)
Definition ndarray_invert (mask : list bool) : list bool := map negb mask.

(** The contents after [a[index] = v] for a boolean [index] of the length
    of [a]: [v] where [index] holds, the old value elsewhere. *)
Definition setitem_bool (index : list bool) (v : pixel) (px : list pixel)
  : list pixel :=
  zip_with (λ (b : bool) x, if b then v else x) index px.

(** [a[index] = v] in place.  numpy raises [IndexError] when the boolean
    index does not have the length of [a]. *)
Definition ndarray_setitem_bool (a : loc) (index : list bool) (v : pixel)
  : M unit :=
  λ s, match heap s !! a with
       | Some px =>
           if decide (length index = length px)
           then (Ok tt, set_heap (<[a := setitem_bool index v px]> (heap s)) s)
           else (Raise IndexError, s)
       | None => (Raise AttributeError, s)
       end.
End Numpy.

(** ** Loops *)

Section Loops.
Context `{Payload}.

(** [for x in xs: body(x)]: an exception in the body leaves the loop. *)
Fixpoint for_each {A} (xs : list A) (body : A → M unit) : M unit :=
  match xs with
  | [] => ret tt
  | x :: xs' => body x ;; for_each xs' body
  end.

Definition show (line : ProgressLine) : M unit :=
  modify (λ s, set_display (display s ++ [line]) s).

(** The enabled progress bar: a refresh after each item. *)
Fixpoint tqdm_iter {A} (desc : string) (total : option nat) (n : nat)
    (xs : list A) (body : A → M unit) : M unit :=
  match xs with
  | [] => ret tt
  | x :: xs' =>
      body x ;;
      show {| bar_desc := desc; bar_done := S n; bar_total := total |} ;;
      tqdm_iter desc total (S n) xs' body
  end.

(** [for x in tqdm(iterable, desc=, total=, disable=): body(x)].  tqdm
    tests [disable] for truth: when it holds the wrapper hands the items
    through and displays nothing; otherwise it draws the bar when created
    and refreshes it as the items go by. *)
Definition tqdm {A} (iterable : list A) (desc : string) (total : option nat)
    (disable : Z) (body : A → M unit) : M unit :=
  if truthy disable then for_each iterable body
  else
    show {| bar_desc := desc; bar_done := 0; bar_total := total |} ;;
    tqdm_iter desc total 0 iterable body.
End Loops.

(** ** The collaborators *)

(** What the tool takes from the toolkit (ctapipe's event source,
    calibrator, image functions and table writer, whose code is not among
    the sources).  Each operation is a parameter and may raise.  Their
    shapes are modelled from the spec: the event source produces a finite
    sequence of events; the calibrator mutates an event in place, deriving
    the per-telescope calibrated images from the raw data; cleaning and
    parametrisation are pure functions of a geometry and a pixel array. *)
Class Toolkit `{Payload} := {
  (** [EventSource.from_url(url, parent=self)] *)
  EventSource_from_url : string → result EventSource;
  (** [calibrator(event)]: fills [event.dl1] from the raw data, allocating
      or updating arrays, and leaves the rest of the event as it is. *)
  CameraCalibrator_apply :
    CameraCalibrator → Event → gmap loc (list pixel) →
    result DL1Container * gmap loc (list pixel);
  (** The pixel selection behind [tailcuts_clean]. *)
  tailcuts_select :
    CameraGeometry → list pixel → Z → Z → result (nat → bool);
  (** [hillas_parameters(geom, image)] *)
  hillas_parameters :
    CameraGeometry → list pixel → result HillasParametersContainer;
  (** Whether a table file can be created at a path. *)
  h5_creatable : string → bool;
  (** Whether a table takes a row built from the given containers. *)
  h5_accepts : string → list Container → bool;
}.

Section Collaborators.
Context `{Toolkit}.

(** Modelled from the spec: [tailcuts_clean] (ctapipe.image, whose code is
    not among the sources) is a pure function of a geometry descriptor and
    a pixel-intensity array that produces a boolean mask, with one boolean
    per pixel index of the image.  Which pixels it keeps for given
    thresholds, and whether it raises, is the toolkit's. *)
Definition tailcuts_clean (geom : CameraGeometry) (img : list pixel)
    (picture_thresh boundary_thresh : Z) : result (list bool) :=
  match tailcuts_select geom img picture_thresh boundary_thresh with
  | Ok keep => Ok (map keep (seq 0 (length img)))
  | Raise e => Raise e
  end.

(** [calibrator(event)]: the event is updated in place. *)
Definition CameraCalibrator_call (cal : CameraCalibrator) (event : Event)
  : M Event :=
  λ s, match CameraCalibrator_apply cal event (heap s) with
       | (Ok d, h) =>
           (Ok {| r0 := r0 event; mc := mc event; dl0 := dl0 event; dl1 := d |},
            set_heap h s)
       | (Raise e, h) => (Raise e, set_heap h s)
       end.

(** Modelled from the spec: [HDF5TableWriter] (ctapipe.io, whose code is
    not among the sources) is a scoped-resource sink that appends
    heterogeneous records into named output groups and is closed on
    completion; opening it creates the output file, or overwrites it.
    The tool always passes [overwrite=True]; the other case is taken to
    refuse a file that exists. *)
Definition HDF5TableWriter_new (fname group : string) (overwrite : bool)
  : M HDF5TableWriter :=
  λ s, if h5_creatable fname
          && (overwrite || bool_decide (disk s !! fname = None))
       then (Ok {| filename := fname; group_name := group; is_open := true |},
             set_disk (<[fname := []]> (disk s)) s)
       else (Raise OSError, s).

(** The rows of the file at a path (none when there is no such file). *)
Definition rows_of (fname : string) (s : State) : H5File :=
  default [] (disk s !! fname).

(** [writer.write(table_name, containers)]: one row appended to the table
    [table_name] of the writer's group. *)
Definition HDF5TableWriter_write (w : HDF5TableWriter) (table_name : string)
    (containers : list Container) : M unit :=
  λ s, if is_open w && h5_accepts table_name containers
       then (Ok tt,
             set_disk (<[filename w :=
                          rows_of (filename w) s ++
                          [{| row_group := group_name w;
                              row_table := table_name;
                              row_containers := containers |}]]> (disk s)) s)
       else (Raise (LibraryError "HDF5TableWriter.write"), s).

(** [writer.close()] on the writer object [self.writer] refers to. *)
Definition HDF5TableWriter_close (w : HDF5TableWriter) : M unit :=
  modify (set_writer (Some {| filename := filename w;
                              group_name := group_name w;
                              is_open := false |})).

(** [self.add_component(c)] registers [c] with the tool and hands it
    back. *)
Definition add_component {A} (c : A) : M A := ret c.

(** [self.log.info(msg)] *)
Definition log_info (msg : string) : M unit :=
  modify (λ s, set_log (log s ++ [msg]) s).
End Collaborators.

(** ** The tool *)

Section SimpleEventWriter.
Context `{Toolkit}.
Variable self : Traits.

Definition setup : M unit :=
  log_info "Configure EventSource..." ;;
  source <- lift (EventSource_from_url (infile self)) ;;
  source <- add_component source ;;
  modify (set_event_source (Some source)) ;;
  source <- attr self_event_source ;;
  calibrator <- add_component {| cal_subarray := subarray source |} ;;
  modify (set_calibrator (Some calibrator)) ;;
  writer <- HDF5TableWriter_new (outfile self) "image_infos" true ;;
  writer <- add_component writer ;;
  modify (set_writer (Some writer)).

(** Lines 84 to 87: the cleaned copy of [image]. *)
Definition clean_image (geom : CameraGeometry) (image : loc) : M loc :=
  px <- ndarray_read image ;;
  mask <- lift (tailcuts_clean geom px 10 5) ;;
  cleaned <- ndarray_copy image ;;
  ndarray_setitem_bool cleaned (ndarray_invert mask) pixel_zero ;;
  ret cleaned.

(** Line 90: [hillas_parameters(geom, cleaned)] on the array [cleaned]
    refers to. *)
Definition parametrise (geom : CameraGeometry) (cleaned : loc)
  : M HillasParametersContainer :=
  cleaned_px <- ndarray_read cleaned ;;
  lift (hillas_parameters geom cleaned_px).

(** The body of the loop over [event.dl0.tels_with_data]. *)
Definition process_tel (event : Event) (tel_id : nat) : M unit :=
  source <- attr self_event_source ;;
  telescope <- getitem (tel (subarray source)) tel_id ;;
  let geom := geometry (camera telescope) in
  dl1_tel <- getitem (dl1_tels (dl1 event)) tel_id ;;
  let image := image dl1_tel in
  cleaned <- clean_image geom image ;;
  params <- parametrise geom cleaned ;;
  writer <- attr self_writer ;;
  HDF5TableWriter_write writer (camera_name geom)
    [R0 (r0 event); MC (mc event); Hillas params].

(** The body of the loop over the events. *)
Definition process_event (event : Event) : M unit :=
  calibrator <- attr self_calibrator ;;
  event <- CameraCalibrator_call calibrator event ;;
  for_each (tels_with_data (dl0 event)) (process_tel event).

Definition start : M unit :=
  log_info "Loop on events..." ;;
  source <- attr self_event_source ;;
  source_for_total <- attr self_event_source ;;
  tqdm (events source) "EventWriter" (max_events source_for_total)
    (py_invert (progress self)) process_event.

Definition finish : M unit :=
  log_info "End of job." ;;
  writer <- attr self_writer ;;
  HDF5TableWriter_close writer.

(** [m], and [cleanup] when [m] raises; the exception goes on. *)
Definition on_exception {A} (m : M A) (cleanup : M unit) : M A :=
  λ s, match m s with
       | (Ok a, s') => (Ok a, s')
       | (Raise e, s') => (Raise e, (cleanup s').2)
       end.

(** Releasing the writer the tool holds, if it holds one. *)
Definition release_writer : M unit :=
  λ s, match self_writer s with
       | Some writer => HDF5TableWriter_close writer s
       | None => (Ok tt, s)
       end.

(** Modelled from the spec: the driver of the tool ([Tool.run] of
    ctapipe.core, whose code is not among the sources).  The tool
    initializes its collaborators, then iterates the events; errors are not
    recovered: a failure terminates the run where it occurs; the writer is
    a scoped resource, released on normal completion, where [finish]
    closes it, and on any early-termination path. *)
Definition run : M unit :=
  on_exception (setup ;; start) release_writer ;; finish.
End SimpleEventWriter.

(** A new process: the files on disk, and nothing else yet. *)
Definition boot `{Payload} (d : gmap string H5File) : State :=
  {| disk := d; display := []; log := []; heap := ∅;
     self_event_source := None; self_calibrator := None;
     self_writer := None |}.

(** ** A small toolkit to run the tool on

    Pixels are integers; a geometry is a row of pixels named by its camera,
    each pixel the neighbour of the next; the raw and the simulation
    container are the event's number and its shower energy; the Hillas
    record is the image's total intensity. *)
Module Toy.
#[export] Instance payload : Payload := {|
  pixel := Z;
  pixel_zero := 0%Z;
  R0Container := nat;
  MCContainer := Z;
  HillasParametersContainer := Z;
  CameraGeometry := string;
  camera_name := λ name, name;
|}.

Definition telescope (name : string) : TelescopeDescription :=
  {| camera := {| geometry := name |} |}.

Definition lst_subarray : SubarrayDescription :=
  {| tel := <[1 := telescope "LSTCam"]> (<[2 := telescope "NectarCam"]> ∅) |}.

(** An event before calibration: no dl1 images yet. *)
Definition raw_event (n : nat) (energy : Z) (tels : list nat) : Event :=
  {| r0 := n; mc := energy; dl0 := {| tels_with_data := tels |};
     dl1 := {| dl1_tels := ∅ |} |}.

(** Two events: both telescopes saw the first, one the second. *)
Definition gamma_source : EventSource :=
  {| subarray := lst_subarray; max_events := Some 2;
     events := [raw_event 0 100 [1; 2]; raw_event 1 250 [1]] |}.

(** The second event of this file cannot be calibrated. *)
Definition broken_source : EventSource :=
  {| subarray := lst_subarray; max_events := None;
     events := [raw_event 0 100 [1; 2]; raw_event 99 0 [1]; raw_event 2 30 [2]] |}.

Definition from_url (url : string) : result EventSource :=
  if String.eqb url "gamma.simtel" then Ok gamma_source
  else if String.eqb url "broken.simtel" then Ok broken_source
  else Raise OSError.

(** The calibrated image of telescope [tel_id] in event [n]. *)
Definition waveform_sum (n tel_id : nat) : list Z :=
  [12; 7; 3; Z.of_nat n + 4; 20 + Z.of_nat tel_id; 6]%Z.

(** Calibration stores the image of telescope [t] at location [t + 1],
    reusing the array of the event before. *)
Definition calibrate (cal : CameraCalibrator) (event : Event)
    (h : gmap loc (list Z)) : result DL1Container * gmap loc (list Z) :=
  if Nat.eqb (r0 event) 99 then (Raise (LibraryError "calibration"), h)
  else
    (Ok {| dl1_tels :=
             list_to_map
               (map (λ t, (t, {| image := Pos.of_nat (S t) |}))
                    (tels_with_data (dl0 event))) |},
     foldr (λ t, insert (Pos.of_nat (S t)) (waveform_sum (r0 event) t)) h
           (tels_with_data (dl0 event))).

Definition at_least (img : list Z) (thresh : Z) (i : nat) : bool :=
  match img !! i with
  | Some v => (thresh <=? v)%Z
  | None => false
  end.

(** Two-level cleaning on a row of pixels: a pixel is kept when it reaches
    the picture threshold, or reaches the boundary threshold next to a
    pixel that reaches the picture threshold. *)
Definition select (geom : string) (img : list Z) (picture boundary : Z)
  : result (nat → bool) :=
  Ok (λ i, at_least img picture i
           || at_least img boundary i
              && (at_least img picture (S i)
                  || match i with
                     | O => false
                     | S j => at_least img picture j
                     end)).

(** The total intensity; an image with none cannot be parametrised. *)
Definition total_intensity (geom : string) (img : list Z) : result Z :=
  let size := foldr Z.add 0%Z img in
  if (0 <? size)%Z then Ok size
  else Raise (LibraryError "HillasParameterizationError").

#[export] Instance toolkit : Toolkit := {|
  EventSource_from_url := from_url;
  CameraCalibrator_apply := calibrate;
  tailcuts_select := select;
  hillas_parameters := total_intensity;
  h5_creatable := λ path, negb (String.eqb path "");
  h5_accepts := λ _ _, true;
|}.

Definition traits (url : string) (show_progress : bool) : Traits :=
  {| infile := url; outfile := "output.h5"; progress := show_progress |}.

(** A disk that already holds an output file with one stale row. *)
Definition stale_disk : gmap string H5File :=
  {[ "output.h5" := [{| row_group := "old"; row_table := "old";
                        row_containers := [] |}] ]}.
(** The selection above at the thresholds 10 and 5, and an exception at
    any others. *)
Definition select_at_10_5_only (geom : string) (img : list Z)
    (picture boundary : Z) : result (nat → bool) :=
  if ((picture =? 10) && (boundary =? 5))%Z
  then select geom img picture boundary
  else Raise (LibraryError "thresholds").

(** The geometry of the first telescope's camera. *)
Definition lst_cam : @CameraGeometry payload := "LSTCam".

(** A process holding one calibrated image, at location 2. *)
Definition one_image : State :=
  set_heap {[ 2%positive := [12; 7; 3; 4; 21; 6]%Z ]} (boot ∅).

(** The tool after [setup] on the file with the event that cannot be
    calibrated. *)
Definition ready_on_broken : State :=
  (setup (traits "broken.simtel" true) (boot ∅)).2.

(** An event with an image for telescope 1 at location 2. *)
Definition seen_by_1 : Event :=
  {| r0 := 7; mc := 80%Z; dl0 := {| tels_with_data := [1] |};
     dl1 := {| dl1_tels := {[ 1 := {| image := 2%positive |} ]} |} |}.
(** A file that opens and holds no event. *)
Definition empty_source : EventSource :=
  {| subarray := lst_subarray; max_events := Some 0; events := [] |}.

(** The toolkit above, which also opens that file. *)
Definition toolkit_with_empty : Toolkit :=
  {| EventSource_from_url := λ url,
       if String.eqb url "empty.simtel" then Ok empty_source
       else from_url url;
     CameraCalibrator_apply := calibrate;
     tailcuts_select := select;
     hillas_parameters := total_intensity;
     h5_creatable := λ path, negb (String.eqb path "");
     h5_accepts := λ _ _, true |}.

(** A process holding one faint image, which no pixel survives, and one
    bright image, which every pixel survives. *)
Definition faint_and_bright : State :=
  set_heap {[ 2%positive := [1; 2; 3]%Z; 5%positive := [30; 40; 50]%Z ]}
    (boot ∅).
(** The tool after [setup] on the file with two events, with the faint
    image at location 2. *)
Definition ready_with_faint : State :=
  set_heap {[ 2%positive := [1; 2; 3]%Z ]}
    (setup (traits "gamma.simtel" true) (boot ∅)).2.

(** The tool after [setup] on the file with two events, with the image of
    six pixels at location 2. *)
Definition ready_with_image : State :=
  set_heap {[ 2%positive := [12; 7; 3; 4; 21; 6]%Z ]}
    (setup (traits "gamma.simtel" true) (boot ∅)).2.
End Toy.

(** ** Vocabulary of the statements *)

Section Vocabulary.
Context `{Toolkit}.

(** The number of telescopes with data, summed over the events of a
    source. *)
Definition telescopes_with_data (source : EventSource) : nat :=
  sum_list (map (λ event, length (tels_with_data (dl0 event)))
                (events source)).

(** The rows in the file of the writer [w]. *)
Definition written (w : HDF5TableWriter) (s : State) : nat :=
  length (rows_of (filename w) s).

(** The contents of the cleaned copy of an image [px] for a mask. *)
Definition cleaned_pixels (mask : list bool) (px : list pixel)
  : list pixel :=
  setitem_bool (ndarray_invert mask) pixel_zero px.

(** A row as the loop body writes it through the writer [w] for a source
    [source]: in the writer's group, in the table named after the camera
    of a telescope of the subarray, and made of the raw container, the
    simulation container and a Hillas record, for an event and a telescope
    that [allowed] admits. *)
Definition row_ok (source : option EventSource) (w : HDF5TableWriter)
    (allowed : Event → nat → Prop) (row : H5Row) : Prop :=
  row_group row = group_name w ∧
  ∃ src event tel_id telescope params,
    source = Some src ∧ allowed event tel_id ∧
    tel (subarray src) !! tel_id = Some telescope ∧
    row_table row = camera_name (geometry (camera telescope)) ∧
    row_containers row = [R0 (r0 event); MC (mc event); Hillas params].

(** What a stretch of the event loop may do to the state: the tool's
    attributes and the display stay; no file but the writer's is touched;
    the writer's file grows by rows of the form above. *)
Record writes (allowed : Event → nat → Prop) (s s' : State) : Prop := {
  writes_source : self_event_source s' = self_event_source s;
  writes_calibrator : self_calibrator s' = self_calibrator s;
  writes_writer : self_writer s' = self_writer s;
  writes_display : display s' = display s;
  writes_others : ∀ g,
    (∀ w, self_writer s = Some w → filename w ≠ g) →
    disk s' !! g = disk s !! g;
  writes_rows : ∀ w,
    self_writer s = Some w →
    ∃ new, rows_of (filename w) s' = rows_of (filename w) s ++ new
           ∧ Forall (row_ok (self_event_source s) w allowed) new;
}.

(** Two states that differ at most in files other than [f], the file the
    writer (if there is one) writes to. *)
Record agree (f : string) (s1 s2 : State) : Prop := {
  agree_file : disk s1 !! f = disk s2 !! f;
  agree_display : display s1 = display s2;
  agree_log : log s1 = log s2;
  agree_heap : heap s1 = heap s2;
  agree_source : self_event_source s1 = self_event_source s2;
  agree_calibrator : self_calibrator s1 = self_calibrator s2;
  agree_writer : self_writer s1 = self_writer s2;
  agree_target : ∀ w, self_writer s1 = Some w → filename w = f;
}.
End Vocabulary.

(** The toolkit [T] with another pixel selection behind [tailcuts_clean]. *)
Definition with_tailcuts `{P : Payload} (T : Toolkit)
    (select : CameraGeometry → list pixel → Z → Z → result (nat → bool))
  : Toolkit :=
  {| EventSource_from_url := EventSource_from_url;
     CameraCalibrator_apply := CameraCalibrator_apply;
     tailcuts_select := select;
     hillas_parameters := hillas_parameters;
     h5_creatable := h5_creatable;
     h5_accepts := h5_accepts |}.

(** ** Vocabulary of the further statements *)

Section Pairs.
Context `{Toolkit}.

(** The events of a source, each with its telescopes with data, in the
    order the two loops of [start] go through them. *)
Definition event_telescope_pairs (source : EventSource)
  : list (Event * nat) :=
  flat_map (λ event, map (pair event) (tels_with_data (dl0 event)))
    (events source).

(** The row the body of the telescope loop writes for an event and a
    telescope of the source, through a writer of the given group. *)
Definition row_of_pair (source : EventSource) (group : string)
    (row : H5Row) (pair : Event * nat) : Prop :=
  row_group row = group
  ∧ ∃ telescope params,
      tel (subarray source) !! pair.2 = Some telescope
      ∧ row_table row = camera_name (geometry (camera telescope))
      ∧ row_containers row
        = [R0 (r0 pair.1); MC (mc pair.1); Hillas params].

(** The lookups at the head of the body of the telescope loop find the
    source, the telescope's description and its dl1 container. *)
Definition located (s : State) (event : Event) (tel_id : nat)
    (source : EventSource) (telescope : TelescopeDescription)
    (d : DL1CameraContainer) : Prop :=
  self_event_source s = Some source
  ∧ tel (subarray source) !! tel_id = Some telescope
  ∧ dl1_tels (dl1 event) !! tel_id = Some d.

(** The row [writer.write] is asked to append at line 93. *)
Definition row_written (w : HDF5TableWriter) (telescope : TelescopeDescription)
    (event : Event) (params : HillasParametersContainer) : H5Row :=
  {| row_group := group_name w;
     row_table := camera_name (geometry (camera telescope));
     row_containers := [R0 (r0 event); MC (mc event); Hillas params] |}.

(** Every pass of a loop over [xs] completes, from [s] to [s']. *)
Fixpoint all_complete {A} (body : A → M unit) (xs : list A)
    (s s' : State) : Prop :=
  match xs with
  | [] => s' = s
  | x :: xs' => ∃ s1, body x s = (Ok tt, s1) ∧ all_complete body xs' s1 s'
  end.

(** The telescopes with data of a list of events, counted. *)
Definition telescopes_in (evs : list Event) : nat :=
  sum_list (map (λ event, length (tels_with_data (dl0 event))) evs).
End Pairs.

(** * Properties *)

(** ** The monad *)

Section MonadFacts.
Context `{Payload}.

Lemma bind_ok {A B} (m : M A) (k : A → M B) s a s1 :
  m s = (Ok a, s1) → bind m k s = k a s1.
Proof. unfold bind. by intros ->. Qed.

Lemma bind_raise {A B} (m : M A) (k : A → M B) s e s1 :
  m s = (Raise e, s1) → bind m k s = (Raise e, s1).
Proof. unfold bind. by intros ->. Qed.

Lemma bind_inv {A B} (m : M A) (k : A → M B) s r s' :
  bind m k s = (r, s') →
  (∃ a s1, m s = (Ok a, s1) ∧ k a s1 = (r, s'))
  ∨ (∃ e, m s = (Raise e, s') ∧ r = Raise e).
Proof.
  unfold bind. destruct (m s) as [[a|e] s1]; intros Hk.
  - left. eauto.
  - right. inversion Hk. eauto.
Qed.

Lemma bind_ok_inv {A B} (m : M A) (k : A → M B) s b s' :
  bind m k s = (Ok b, s') →
  ∃ a s1, m s = (Ok a, s1) ∧ k a s1 = (Ok b, s').
Proof.
  intros [Hk|(e & _ & ?)]%bind_inv; [done|discriminate].
Qed.

(** Two bodies that agree give the same loop. *)
Lemma for_each_ext {A} (xs : list A) (f g : A → M unit) s :
  (∀ x s0, f x s0 = g x s0) → for_each xs f s = for_each xs g s.
Proof.
  intros Hfg. revert s. induction xs as [|x xs IH]; intros s; [done|].
  simpl. unfold bind. rewrite Hfg.
  destruct (g x s) as [[[]|e] s1]; [apply IH|done].
Qed.

(** A loop over [pre ++ x :: post] whose body raises at [x] ends there:
    no item of [post] is reached. *)
Lemma for_each_raise {A} (pre post : list A) x (body : A → M unit)
    s s1 e s2 :
  for_each pre body s = (Ok tt, s1) →
  body x s1 = (Raise e, s2) →
  for_each (pre ++ x :: post) body s = (Raise e, s2).
Proof.
  revert s. induction pre as [|y pre IH]; intros s Hpre Hx; simpl in *.
  - inversion Hpre; subst. by rewrite (bind_raise _ _ _ _ _ Hx).
  - apply bind_ok_inv in Hpre as ([] & s0 & Hy & Hpre).
    rewrite (bind_ok _ _ _ _ _ Hy). by apply IH.
Qed.

(** A relation every pass of the body keeps is kept by the loop. *)
Lemma for_each_steps {A} (T : State → State → Prop)
    (xs : list A) (body : A → M unit) :
  (∀ s, T s s) →
  (∀ s1 s2 s3, T s1 s2 → T s2 s3 → T s1 s3) →
  (∀ x, x ∈ xs → ∀ s, T s (body x s).2) →
  ∀ s, T s (for_each xs body s).2.
Proof.
  intros Hrefl Htrans.
  induction xs as [|x xs IH]; intros Hbody s; simpl; [apply Hrefl|].
  unfold bind.
  pose proof (Hbody x ltac:(left) s) as Hx.
  destruct (body x s) as [[[]|e] s1]; simpl in *; [|done].
  apply Htrans with s1; [exact Hx|].
  apply IH. intros y Hy. apply Hbody. by right.
Qed.

(** Whatever the flag, its complement is a non-zero integer. *)
Lemma truthy_py_invert (b : bool) : truthy (py_invert b) = true.
Proof. by destruct b. Qed.
End MonadFacts.

(** ** What the loop body does to the state *)

Section Frame.
Context `{Toolkit}.

Lemma writes_refl allowed s : writes allowed s s.
Proof.
  split; try done. intros w _. exists []. by rewrite app_nil_r.
Qed.

Lemma writes_trans allowed s1 s2 s3 :
  writes allowed s1 s2 → writes allowed s2 s3 → writes allowed s1 s3.
Proof.
  intros [Hs1 Hc1 Hw1 Hd1 Ho1 Hr1] [Hs2 Hc2 Hw2 Hd2 Ho2 Hr2].
  split; try congruence.
  - intros g Hg. rewrite Ho2, Ho1; [done|done|]. by rewrite Hw1.
  - intros w Hw.
    destruct (Hr1 w Hw) as (new1 & E1 & F1).
    destruct (Hr2 w ltac:(congruence)) as (new2 & E2 & F2).
    exists (new1 ++ new2). split.
    + by rewrite E2, E1, app_assoc.
    + apply Forall_app. split; [done|]. by rewrite <- Hs1.
Qed.

Lemma writes_mono (allowed allowed' : Event → nat → Prop) s s' :
  (∀ event tel_id, allowed event tel_id → allowed' event tel_id) →
  writes allowed s s' → writes allowed' s s'.
Proof.
  intros Hsub [Hs Hc Hw Hd Ho Hr]. split; try done.
  intros w Hsw. destruct (Hr w Hsw) as (new & E & F).
  exists new. split; [done|].
  eapply Forall_impl; [exact F|].
  intros row (Hg & src & event & tel_id & td & params & ? & ? & ?).
  split; [done|]. exists src, event, tel_id, td, params. intuition.
Qed.

Lemma writes_set_heap allowed s h : writes allowed s (set_heap h s).
Proof.
  split; try done. intros w _. exists []. by rewrite app_nil_r.
Qed.

Lemma writes_set_log allowed s l : writes allowed s (set_log l s).
Proof.
  split; try done. intros w _. exists []. by rewrite app_nil_r.
Qed.

(** Lines 84 to 87 in one equation. *)
Lemma clean_image_eq geom image s :
  clean_image geom image s =
  match heap s !! image with
  | None => (Raise AttributeError, s)
  | Some px =>
      match tailcuts_clean geom px 10 5 with
      | Raise e => (Raise e, s)
      | Ok mask =>
          let c := fresh (dom (heap s)) in
          if decide (length mask = length px)
          then (Ok c, set_heap (<[c := cleaned_pixels mask px]> (heap s)) s)
          else (Raise IndexError, set_heap (<[c := px]> (heap s)) s)
      end
  end.
Proof.
  unfold clean_image, bind, ndarray_read, lift, ndarray_copy,
    ndarray_setitem_bool, ret.
  destruct (heap s !! image) as [px|] eqn:Hpx; [|done].
  destruct (tailcuts_clean geom px 10 5) as [mask|e]; [|done].
  rewrite Hpx. cbn [heap set_heap]. rewrite lookup_insert_eq.
  unfold ndarray_invert. rewrite length_map.
  destruct (decide (length mask = length px)); [|done].
  cbn. by rewrite insert_insert_eq.
Qed.

(** Cleaning touches nothing but the heap. *)
Lemma clean_image_state geom image s :
  ∃ h, (clean_image geom image s).2 = set_heap h s.
Proof.
  rewrite clean_image_eq.
  destruct (heap s !! image) as [px|]; [|by exists (heap s); destruct s].
  destruct (tailcuts_clean geom px 10 5) as [mask|e];
    [|by exists (heap s); destruct s].
  simpl. destruct (decide _); simpl; eauto.
Qed.

Lemma parametrise_state geom cleaned s :
  (parametrise geom cleaned s).2 = s.
Proof.
  unfold parametrise, bind, ndarray_read, lift.
  by destruct (heap s !! cleaned).
Qed.

Lemma rows_of_write w table containers s :
  rows_of (filename w)
    (set_disk (<[filename w :=
                 rows_of (filename w) s ++
                 [{| row_group := group_name w; row_table := table;
                     row_containers := containers |}]]> (disk s)) s)
  = rows_of (filename w) s ++
    [{| row_group := group_name w; row_table := table;
        row_containers := containers |}].
Proof. unfold rows_of at 1. simpl. by rewrite lookup_insert_eq. Qed.

(** One pass of the telescope loop. *)
Lemma process_tel_writes (allowed : Event → nat → Prop) event orig tel_id s :
  allowed orig tel_id → r0 event = r0 orig → mc event = mc orig →
  writes allowed s (process_tel event tel_id s).2.
Proof.
  intros Hallowed Hr0 Hmc.
  unfold process_tel, bind, attr, getitem.
  destruct (self_event_source s) as [src|] eqn:Hsrc; [|apply writes_refl].
  destruct (tel (subarray src) !! tel_id) as [td|] eqn:Htd;
    [|apply writes_refl].
  destruct (dl1_tels (dl1 event) !! tel_id) as [d|]; [|apply writes_refl].
  destruct (clean_image_state (geometry (camera td)) (image d) s) as [h Hh].
  destruct (clean_image _ _ s) as [[c|e] s1]; simpl in Hh; subst s1;
    [|apply writes_set_heap].
  pose proof (parametrise_state (geometry (camera td)) c (set_heap h s)) as Hp.
  destruct (parametrise _ _ _) as [[params|e] s2]; simpl in Hp; subst s2;
    [|apply writes_set_heap].
  simpl. destruct (self_writer s) as [w|] eqn:Hw; [|apply writes_set_heap].
  unfold HDF5TableWriter_write.
  destruct (is_open w && h5_accepts _ _); [|apply writes_set_heap].
  simpl. split; simpl; try done.
  - intros g Hg. apply lookup_insert_ne. apply Hg. done.
  - intros w' Hw'. rewrite Hw in Hw'. injection Hw' as <-.
    eexists. split.
    + unfold rows_of at 1. simpl. rewrite lookup_insert_eq. reflexivity.
    + apply Forall_singleton. split; [done|].
      exists src, orig, tel_id, td, params. simpl.
      rewrite Hr0, Hmc. done.
Qed.

(** One pass of the event loop. *)
Lemma process_event_writes (allowed : Event → nat → Prop) event s :
  (∀ tel_id, tel_id ∈ tels_with_data (dl0 event) → allowed event tel_id) →
  writes allowed s (process_event event s).2.
Proof.
  intros Hallowed. unfold process_event, bind, attr.
  destruct (self_calibrator s) as [cal|]; [|apply writes_refl].
  unfold CameraCalibrator_call.
  destruct (CameraCalibrator_apply cal event (heap s)) as [[d|e] h];
    [|apply writes_set_heap].
  apply writes_trans with (set_heap h s); [apply writes_set_heap|].
  apply (for_each_steps (writes allowed));
    [apply writes_refl|apply writes_trans|].
  intros tel_id Hin s0. simpl in Hin.
  by apply process_tel_writes with (orig := event); [apply Hallowed|..].
Qed.

(** The progress bar is never enabled: the loop of [start] is the plain
    loop over the events. *)
Lemma start_unfold (self : Traits) s :
  start self s =
  match self_event_source s with
  | Some source =>
      for_each (events source) process_event
        (set_log (log s ++ ["Loop on events..."]) s)
  | None => (Raise AttributeError, set_log (log s ++ ["Loop on events..."]) s)
  end.
Proof.
  unfold start, bind, log_info, modify, attr, tqdm. simpl.
  destruct (self_event_source s) as [source|] eqn:Hsource; [|done].
  cbn [self_event_source set_log]. rewrite Hsource.
  by rewrite truthy_py_invert.
Qed.

Lemma start_writes (self : Traits) s :
  writes (λ event tel_id,
            ∃ source, self_event_source s = Some source
                      ∧ event ∈ events source
                      ∧ tel_id ∈ tels_with_data (dl0 event))
    s (start self s).2.
Proof.
  rewrite start_unfold.
  destruct (self_event_source s) as [source|] eqn:Hsrc;
    [|apply writes_set_log].
  eapply writes_trans; [apply writes_set_log|].
  apply (for_each_steps (writes _));
    [apply writes_refl|apply writes_trans|].
  intros event Hin s0. apply process_event_writes. eauto.
Qed.
End Frame.

(** ** Counting the rows *)

Section Counting.
Context `{Toolkit}.

(** A loop whose body, under an invariant, raises a measure by at most
    the weight of the item, and by exactly that much when it completes. *)
Lemma for_each_count {A} (n : State → nat) (inv : State → Prop)
    (wt : A → nat) (xs : list A) (body : A → M unit) :
  (∀ x s, inv s →
     inv (body x s).2
     ∧ n s ≤ n (body x s).2 ≤ n s + wt x
     ∧ ((body x s).1 = Ok tt → n (body x s).2 = n s + wt x)) →
  ∀ s, inv s →
    inv (for_each xs body s).2
    ∧ n s ≤ n (for_each xs body s).2 ≤ n s + sum_list (map wt xs)
    ∧ ((for_each xs body s).1 = Ok tt →
       n (for_each xs body s).2 = n s + sum_list (map wt xs)).
Proof.
  intros Hbody. induction xs as [|x xs IH]; intros s Hs; simpl.
  - split; [done|]. split; lia.
  - unfold bind. destruct (Hbody x s Hs) as (Hi & Hle & Heq).
    destruct (body x s) as [[[]|e] s1]; simpl in *.
    + destruct (IH s1 Hi) as (Hi' & Hle' & Heq').
      split; [done|]. split; [lia|].
      intros Hok. rewrite (Heq' Hok), (Heq eq_refl). lia.
    + split; [done|]. split; [lia|done].
Qed.

Lemma sum_list_ones {A} (xs : list A) :
  sum_list (map (λ _, 1) xs) = length xs.
Proof. induction xs; simpl; congruence. Qed.

Lemma written_insert w rows d s :
  written w (set_disk (<[filename w := rows]> d) s) = length rows.
Proof. unfold written, rows_of. simpl. by rewrite lookup_insert_eq. Qed.

(** One pass of the telescope loop writes one row when it completes and
    none when it raises. *)
Lemma process_tel_count w event tel_id s :
  self_writer s = Some w →
  self_writer (process_tel event tel_id s).2 = Some w
  ∧ written w s ≤ written w (process_tel event tel_id s).2 ≤ written w s + 1
  ∧ ((process_tel event tel_id s).1 = Ok tt →
     written w (process_tel event tel_id s).2 = written w s + 1).
Proof.
  intros Hw. unfold process_tel, bind, attr, getitem.
  assert (Hsame : ∀ (e : Exception) h,
    self_writer (Raise (A:=unit) e, set_heap h s).2 = Some w
    ∧ written w s ≤ written w (Raise (A:=unit) e, set_heap h s).2
                  ≤ written w s + 1
    ∧ ((Raise (A:=unit) e, set_heap h s).1 = Ok tt →
       written w (Raise (A:=unit) e, set_heap h s).2 = written w s + 1)).
  { intros e h. simpl. unfold written, rows_of. simpl.
    split; [done|]. split; [lia|done]. }
  assert (Hsame0 : ∀ (e : Exception),
    self_writer (Raise (A:=unit) e, s).2 = Some w
    ∧ written w s ≤ written w (Raise (A:=unit) e, s).2 ≤ written w s + 1
    ∧ ((Raise (A:=unit) e, s).1 = Ok tt →
       written w (Raise (A:=unit) e, s).2 = written w s + 1)).
  { intros e. simpl. split; [done|]. split; [lia|done]. }
  destruct (self_event_source s) as [src|]; [|apply Hsame0].
  destruct (tel (subarray src) !! tel_id) as [td|]; [|apply Hsame0].
  destruct (dl1_tels (dl1 event) !! tel_id) as [d|]; [|apply Hsame0].
  destruct (clean_image_state (geometry (camera td)) (image d) s) as [h Hh].
  destruct (clean_image _ _ s) as [[c|e] s1]; simpl in Hh; subst s1;
    [|apply Hsame].
  pose proof (parametrise_state (geometry (camera td)) c (set_heap h s)) as Hp.
  destruct (parametrise _ _ _) as [[params|e] s2]; simpl in Hp; subst s2;
    [|apply Hsame].
  cbn [self_writer set_heap]. rewrite Hw.
  unfold HDF5TableWriter_write.
  destruct (is_open w && h5_accepts _ _); [|apply Hsame].
  cbn [fst snd self_writer set_disk set_heap]. split; [done|].
  rewrite written_insert, length_app.
  change (length (rows_of (filename w) (set_heap h s))) with (written w s).
  simpl. split; [lia|done].
Qed.

(** One pass of the event loop writes one row per telescope with data
    when it completes, and no more than that in any case. *)
Lemma process_event_count w event s :
  self_writer s = Some w →
  self_writer (process_event event s).2 = Some w
  ∧ written w s ≤ written w (process_event event s).2
                ≤ written w s + length (tels_with_data (dl0 event))
  ∧ ((process_event event s).1 = Ok tt →
     written w (process_event event s).2
     = written w s + length (tels_with_data (dl0 event))).
Proof.
  intros Hw. unfold process_event, bind, attr.
  destruct (self_calibrator s) as [cal|];
    [|simpl; split; [done|]; split; [lia|done]].
  unfold CameraCalibrator_call.
  destruct (CameraCalibrator_apply cal event (heap s)) as [[d|e] h];
    [|simpl; unfold written, rows_of; simpl; split; [done|];
      split; [lia|done]].
  cbn [dl0 tels_with_data].
  rewrite <- (sum_list_ones (tels_with_data (dl0 event))).
  change (written w s) with (written w (set_heap h s)).
  apply (for_each_count (written w) (λ s0, self_writer s0 = Some w)
           (λ _, 1)); [|done].
  intros tel_id s0 Hs0. by apply process_tel_count.
Qed.

(** [start] on a state whose writer is [w] and whose source is
    [source]. *)
Lemma start_count (self : Traits) w source s :
  self_writer s = Some w → self_event_source s = Some source →
  self_writer (start self s).2 = Some w
  ∧ written w s ≤ written w (start self s).2
                ≤ written w s + telescopes_with_data source
  ∧ ((start self s).1 = Ok tt →
     written w (start self s).2 = written w s + telescopes_with_data source).
Proof.
  intros Hw Hsrc. rewrite start_unfold, Hsrc.
  change (written w s)
    with (written w (set_log (log s ++ ["Loop on events..."]) s)).
  apply (for_each_count (written w) (λ s0, self_writer s0 = Some w)
           (λ event, length (tels_with_data (dl0 event)))); [|done].
  intros event s0 Hs0. by apply process_event_count.
Qed.

(** [setup] in one equation. *)
Lemma setup_eq (self : Traits) s :
  setup self s =
  let s0 := set_log (log s ++ ["Configure EventSource..."]) s in
  match EventSource_from_url (infile self) with
  | Raise e => (Raise e, s0)
  | Ok source =>
      let s1 :=
        set_calibrator (Some {| cal_subarray := subarray source |})
          (set_event_source (Some source) s0) in
      if h5_creatable (outfile self)
      then (Ok tt,
            set_writer (Some {| filename := outfile self;
                                group_name := "image_infos";
                                is_open := true |})
              (set_disk (<[outfile self := []]> (disk s1)) s1))
      else (Raise OSError, s1)
  end.
Proof.
  unfold setup, bind, log_info, modify, lift, add_component, ret, attr,
    HDF5TableWriter_new.
  cbn. destruct (EventSource_from_url (infile self)); [|done].
  cbn. by destruct (h5_creatable (outfile self)).
Qed.
End Counting.

(** ** The rows written, the display, the writer *)

Section Rows.
Context `{Toolkit}.

(** The state [setup] leaves when both the source and the writer open. *)
Lemma setup_ok (self : Traits) s source :
  EventSource_from_url (infile self) = Ok source →
  h5_creatable (outfile self) = true →
  ∃ s1, setup self s = (Ok tt, s1)
        ∧ self_event_source s1 = Some source
        ∧ self_calibrator s1 = Some {| cal_subarray := subarray source |}
        ∧ self_writer s1 = Some {| filename := outfile self;
                                   group_name := "image_infos";
                                   is_open := true |}
        ∧ disk s1 = <[outfile self := []]> (disk s)
        ∧ display s1 = display s
        ∧ heap s1 = heap s
        ∧ log s1 = log s ++ ["Configure EventSource..."].
Proof.
  intros Hsrc Hcreate. rewrite setup_eq, Hsrc. cbn zeta. rewrite Hcreate.
  eexists. split; [reflexivity|]. by repeat split.
Qed.

(** When [setup] raises there is no new writer, and no file is touched. *)
Lemma setup_raise (self : Traits) s e s1 :
  setup self s = (Raise e, s1) →
  self_writer s1 = self_writer s ∧ disk s1 = disk s
  ∧ display s1 = display s
  ∧ (EventSource_from_url (infile self) = Raise e
     ∨ (h5_creatable (outfile self) = false ∧ e = OSError)).
Proof.
  rewrite setup_eq. cbn zeta.
  destruct (EventSource_from_url (infile self)) as [source|e'].
  - destruct (h5_creatable (outfile self)); [discriminate|].
    intros [= <- <-]. simpl. repeat split; auto.
  - intros [= <- <-]. simpl. repeat split; auto.
Qed.

(** [setup] succeeds only when both open. *)
Lemma setup_ok_inv (self : Traits) s s1 :
  setup self s = (Ok tt, s1) →
  ∃ source, EventSource_from_url (infile self) = Ok source
            ∧ h5_creatable (outfile self) = true.
Proof.
  rewrite setup_eq. cbn zeta.
  destruct (EventSource_from_url (infile self)) as [source|e'];
    [|discriminate].
  destruct (h5_creatable (outfile self)); [eauto|discriminate].
Qed.

(** C1.  One row per event and telescope with data: when the source
    opens and the loop of [start] completes, the output file holds as
    many rows as there are telescopes with data, summed over the events
    of the source.  A loop that raises has written no more than that. *)
Theorem rows_written_count (self : Traits) (s : State)
    (source : EventSource) :
  EventSource_from_url (infile self) = Ok source →
  (((setup self ;; start self) s).1 = Ok tt →
   length (rows_of (outfile self) ((setup self ;; start self) s).2)
   = telescopes_with_data source)
  ∧ (h5_creatable (outfile self) = true →
     length (rows_of (outfile self) ((setup self ;; start self) s).2)
     ≤ telescopes_with_data source).
Proof.
  intros Hsrc.
  destruct (h5_creatable (outfile self)) eqn:Hcreate.
  - destruct (setup_ok self s source Hsrc Hcreate)
      as (s1 & Hsetup & Hes & _ & Hw & Hdisk & _).
    rewrite (bind_ok _ _ _ _ _ Hsetup).
    destruct (start_count self _ source s1 Hw Hes) as (_ & Hle & Heq).
    assert (written {| filename := outfile self;
                       group_name := "image_infos";
                       is_open := true |} s1 = 0) as Hzero.
    { unfold written, rows_of. simpl. by rewrite Hdisk, lookup_insert_eq. }
    rewrite Hzero in Hle, Heq. unfold written in Hle, Heq. simpl in Hle, Heq.
    split; [exact Heq|]. intros _. lia.
  - split; [|discriminate].
    intros Hok. exfalso.
    destruct (setup self s) as [[[]|e] s1] eqn:Hsetup.
    + apply setup_ok_inv in Hsetup as (? & _ & ?). congruence.
    + by rewrite (bind_raise _ _ _ _ _ Hsetup) in Hok.
Qed.

(** C4.  With [progress] set to true, [start] displays nothing: the
    flag reaches tqdm as [~True = -2], which is true, so the bar is
    disabled. *)
Theorem progress_true_shows_nothing (url out : string) (s : State) :
  display (start {| infile := url; outfile := out; progress := true |} s).2
  = display s.
Proof. apply (writes_display _ _ _ (start_writes _ s)). Qed.

(** The flag has no effect on [start] at all. *)
Lemma start_ignores_progress (self self' : Traits) s :
  start self s = start self' s.
Proof. by rewrite !start_unfold. Qed.

(** [run], step by step. *)
Lemma run_eq (self : Traits) s :
  run self s =
  match setup self s with
  | (Ok _, s1) =>
      match start self s1 with
      | (Ok _, s2) => finish s2
      | (Raise e, s2) => (Raise e, (release_writer s2).2)
      end
  | (Raise e, s1) => (Raise e, (release_writer s1).2)
  end.
Proof.
  unfold run, on_exception, bind.
  destruct (setup self s) as [[[]|e] s1]; [|done].
  by destruct (start self s1) as [[[]|e] s2].
Qed.

Lemma release_writer_eq s :
  release_writer s =
  (Ok tt,
   match self_writer s with
   | Some w => set_writer (Some {| filename := filename w;
                                   group_name := group_name w;
                                   is_open := false |}) s
   | None => s
   end).
Proof. unfold release_writer. by destruct (self_writer s). Qed.

Lemma finish_eq s :
  finish s =
  match self_writer s with
  | Some w =>
      (Ok tt, set_writer (Some {| filename := filename w;
                                  group_name := group_name w;
                                  is_open := false |})
                (set_log (log s ++ ["End of job."]) s))
  | None => (Raise AttributeError, set_log (log s ++ ["End of job."]) s)
  end.
Proof.
  unfold finish, bind, log_info, modify, attr, HDF5TableWriter_close.
  simpl. by destruct (self_writer s).
Qed.

End Rows.

(** ** The cleaned image *)

Section Cleaning.
Context `{Toolkit}.

(** The mask has one boolean per pixel of the image. *)
Lemma tailcuts_clean_length geom px picture_thresh boundary_thresh mask :
  tailcuts_clean geom px picture_thresh boundary_thresh = Ok mask →
  length mask = length px.
Proof.
  unfold tailcuts_clean.
  destruct (tailcuts_select _ _ _ _) as [keep|e]; [|discriminate].
  intros [= <-]. by rewrite length_map, length_seq.
Qed.

(** The cleaned copy, pixel by pixel. *)
Lemma cleaned_pixels_lookup (mask : list bool) (px : list pixel) i :
  cleaned_pixels mask px !! i
  = match mask !! i, px !! i with
    | Some b, Some x => Some (if b : bool then x else pixel_zero)
    | _, _ => None
    end.
Proof.
  unfold cleaned_pixels, setitem_bool, ndarray_invert.
  rewrite lookup_zip_with, list_lookup_fmap.
  destruct (mask !! i) as [[]|]; simpl; by destruct (px !! i).
Qed.

Lemma cleaned_pixels_length (mask : list bool) (px : list pixel) :
  length mask = length px → length (cleaned_pixels mask px) = length px.
Proof.
  intros Hlen. unfold cleaned_pixels, setitem_bool, ndarray_invert.
  rewrite length_zip_with, length_map. lia.
Qed.

(** What a successful cleaning has done. *)
Lemma clean_image_ok geom image s c s1 :
  clean_image geom image s = (Ok c, s1) →
  ∃ px mask,
    heap s !! image = Some px
    ∧ tailcuts_clean geom px 10 5 = Ok mask
    ∧ length mask = length px
    ∧ c = fresh (dom (heap s))
    ∧ s1 = set_heap (<[c := cleaned_pixels mask px]> (heap s)) s.
Proof.
  rewrite clean_image_eq.
  destruct (heap s !! image) as [px|]; [|discriminate].
  destruct (tailcuts_clean geom px 10 5) as [mask|e] eqn:Hmask;
    [|discriminate].
  cbn zeta. destruct (decide (length mask = length px)); [|discriminate].
  intros [= <- <-]. by exists px, mask.
Qed.

(** A location in use is not the one a copy is put at. *)
Lemma fresh_not_in_use (h : gmap loc (list pixel)) l :
  is_Some (h !! l) → l ≠ fresh (dom h).
Proof.
  intros Hl ->. apply (is_fresh (dom h)). by apply elem_of_dom.
Qed.

(** Cleaning leaves every array there was as it is. *)
Lemma clean_image_heap geom image s l :
  is_Some (heap s !! l) →
  heap (clean_image geom image s).2 !! l = heap s !! l.
Proof.
  intros Hl. rewrite clean_image_eq.
  destruct (heap s !! image) as [px|]; [|done].
  destruct (tailcuts_clean geom px 10 5) as [mask|e]; [|done].
  cbn zeta. destruct (decide _); simpl;
    by rewrite lookup_insert_ne by (symmetry; by apply fresh_not_in_use).
Qed.

(** So does the whole body of the telescope loop. *)
Lemma process_tel_heap event tel_id s l :
  is_Some (heap s !! l) →
  heap (process_tel event tel_id s).2 !! l = heap s !! l.
Proof.
  intros Hl. unfold process_tel, bind, attr, getitem.
  destruct (self_event_source s) as [src|]; [|done].
  destruct (tel (subarray src) !! tel_id) as [td|]; [|done].
  destruct (dl1_tels (dl1 event) !! tel_id) as [d|]; [|done].
  pose proof (clean_image_heap (geometry (camera td)) (image d) s l Hl)
    as Hclean.
  destruct (clean_image_state (geometry (camera td)) (image d) s) as [h Hh].
  destruct (clean_image _ _ s) as [[c|e] s1]; simpl in Hh, Hclean; subst s1;
    [|done].
  pose proof (parametrise_state (geometry (camera td)) c (set_heap h s)) as Hp.
  destruct (parametrise _ _ _) as [[params|e] s2]; simpl in Hp; subst s2;
    [|done].
  cbn [self_writer set_heap].
  destruct (self_writer s) as [w|]; [|done].
  unfold HDF5TableWriter_write.
  by destruct (is_open w && h5_accepts _ _).
Qed.

(** C9.  The mask [tailcuts_clean] returns for an image has the length
    of the image, and so has its complement [~mask]; the assignment
    [cleaned[~mask] = 0] on an array of the image's length therefore does
    not raise, cleaning completes, and the cleaned copy has a value at
    every pixel index of the image. *)
Theorem mask_and_image_same_length (geom : CameraGeometry) (image : loc)
    (s : State) (px : list pixel) (mask : list bool) :
  heap s !! image = Some px →
  tailcuts_clean geom px 10 5 = Ok mask →
  length mask = length px
  ∧ length (ndarray_invert mask) = length px
  ∧ (∀ a s0, heap s0 !! a = Some px →
       (ndarray_setitem_bool a (ndarray_invert mask) pixel_zero s0).1
       = Ok tt)
  ∧ (∃ c, clean_image geom image s
          = (Ok c, set_heap (<[c := cleaned_pixels mask px]> (heap s)) s))
  ∧ ∀ i, i < length px →
         is_Some (mask !! i) ∧ is_Some (cleaned_pixels mask px !! i).
Proof.
  intros Hpx Hmask.
  pose proof (tailcuts_clean_length _ _ _ _ _ Hmask) as Hlen.
  assert (length (ndarray_invert mask) = length px) as Hinv.
  { unfold ndarray_invert. by rewrite length_map. }
  split; [done|]. split; [done|]. split; [|split].
  - intros a s0 Ha. unfold ndarray_setitem_bool. rewrite Ha.
    by destruct (decide _).
  - exists (fresh (dom (heap s))).
    rewrite clean_image_eq, Hpx, Hmask. cbn zeta.
    by destruct (decide _).
  - intros i Hi. split.
    + apply lookup_lt_is_Some_2. lia.
    + apply lookup_lt_is_Some_2. rewrite cleaned_pixels_length; lia.
Qed.

(** C10.  Cleaning works on a copy.  The body of the telescope loop
    leaves every array that was there, the event's dl1 image among them,
    as it was; and when cleaning completes, the cleaned array is another
    array than the image, holding the image's value at every pixel inside
    the mask and zero at every pixel outside. *)
Theorem cleaning_works_on_a_copy (geom : CameraGeometry) (event : Event)
    (tel_id : nat) (image : loc) (s : State) (px : list pixel) :
  heap s !! image = Some px →
  heap (process_tel event tel_id s).2 !! image = Some px
  ∧ heap (clean_image geom image s).2 !! image = Some px
  ∧ ∀ c, (clean_image geom image s).1 = Ok c →
      c ≠ image
      ∧ ∃ mask cleaned,
          tailcuts_clean geom px 10 5 = Ok mask
          ∧ heap (clean_image geom image s).2 !! c = Some cleaned
          ∧ length cleaned = length px
          ∧ ∀ i (b : bool) x, mask !! i = Some b → px !! i = Some x →
              cleaned !! i = Some (if b then x else pixel_zero).
Proof.
  intros Hpx.
  split; [by rewrite process_tel_heap, Hpx|].
  split; [by rewrite clean_image_heap, Hpx|].
  intros c Hc.
  destruct (clean_image geom image s) as [r s1] eqn:Hclean.
  simpl in Hc. subst r.
  destruct (clean_image_ok _ _ _ _ _ Hclean)
    as (px' & mask & Hpx' & Hmask & Hlen & Hfresh & Hs1).
  rewrite Hpx in Hpx'. injection Hpx' as <-.
  split.
  { rewrite Hfresh. symmetry. apply fresh_not_in_use. by rewrite Hpx. }
  exists mask, (cleaned_pixels mask px). simpl.
  split; [done|]. split; [rewrite Hs1; simpl; apply lookup_insert_eq|].
  split; [by apply cleaned_pixels_length|].
  intros i b x Hb Hx. by rewrite cleaned_pixels_lookup, Hb, Hx.
Qed.
End Cleaning.

(** ** The thresholds *)

Section Thresholds.
Context `{P : Payload}.

Lemma process_tel_with_tailcuts (T : Toolkit) select event tel_id s :
  (∀ geom px,
     @tailcuts_clean P (with_tailcuts T select) geom px 10 5
     = @tailcuts_clean P T geom px 10 5) →
  @process_tel P (with_tailcuts T select) event tel_id s
  = @process_tel P T event tel_id s.
Proof.
  intros Hsame. unfold process_tel, bind, attr, getitem.
  destruct (self_event_source s) as [src|]; [|done].
  destruct (tel (subarray src) !! tel_id) as [td|]; [|done].
  destruct (dl1_tels (dl1 event) !! tel_id) as [d|]; [|done].
  rewrite !clean_image_eq.
  destruct (heap s !! image d) as [px|]; [|done].
  rewrite Hsame. reflexivity.
Qed.

End Thresholds.

(** ** Running again *)

Section Rerun.
Context `{Toolkit}.

Lemma agree_set_heap f s1 s2 h :
  agree f s1 s2 → agree f (set_heap h s1) (set_heap h s2).
Proof. intros []. by split. Qed.

Lemma agree_set_log f s1 s2 l :
  agree f s1 s2 → agree f (set_log l s1) (set_log l s2).
Proof. intros []. by split. Qed.

(** A loop whose body cannot tell two such states apart cannot either. *)
Lemma for_each_agree {A} f (xs : list A) (body : A → M unit) :
  (∀ x s1 s2, agree f s1 s2 →
     (body x s1).1 = (body x s2).1 ∧ agree f (body x s1).2 (body x s2).2) →
  ∀ s1 s2, agree f s1 s2 →
    (for_each xs body s1).1 = (for_each xs body s2).1
    ∧ agree f (for_each xs body s1).2 (for_each xs body s2).2.
Proof.
  intros Hbody. induction xs as [|x xs IH]; intros s1 s2 Hs; simpl; [done|].
  unfold bind. destruct (Hbody x s1 s2 Hs) as [Hr Ha].
  destruct (body x s1) as [[[]|e1] t1], (body x s2) as [[[]|e2] t2];
    simpl in *; try discriminate.
  - by apply IH.
  - done.
Qed.

Lemma parametrise_eq geom c s :
  parametrise geom c s =
  (match heap s !! c with
   | Some px => hillas_parameters geom px
   | None => Raise AttributeError
   end, s).
Proof.
  unfold parametrise, bind, ndarray_read, lift.
  by destruct (heap s !! c).
Qed.

Lemma process_tel_agree f event tel_id s1 s2 :
  agree f s1 s2 →
  (process_tel event tel_id s1).1 = (process_tel event tel_id s2).1
  ∧ agree f (process_tel event tel_id s1).2 (process_tel event tel_id s2).2.
Proof.
  intros Hs. pose proof Hs as [Hf Hd Hl Hh Hsrc Hcal Hw Ht].
  unfold process_tel, bind, attr, getitem. rewrite <- Hsrc.
  destruct (self_event_source s1) as [src|]; [|done].
  destruct (tel (subarray src) !! tel_id) as [td|]; [|done].
  destruct (dl1_tels (dl1 event) !! tel_id) as [d|]; [|done].
  rewrite !clean_image_eq, <- Hh.
  destruct (heap s1 !! image d) as [px|]; [|done].
  destruct (tailcuts_clean _ px 10 5) as [mask|e]; [|done].
  cbn zeta. destruct (decide (length mask = length px)) as [Hlen|Hlen];
    [|split; [done|by apply agree_set_heap]].
  rewrite !parametrise_eq. cbn [heap set_heap].
  destruct (_ !! fresh (dom (heap s1))) as [cpx|];
    [|split; [done|by apply agree_set_heap]].
  destruct (hillas_parameters _ cpx) as [params|e];
    [|split; [done|by apply agree_set_heap]].
  cbn [self_writer set_heap]. rewrite <- Hw.
  destruct (self_writer s1) as [w|] eqn:Hw1;
    [|split; [done|by apply agree_set_heap]].
  unfold HDF5TableWriter_write.
  destruct (is_open w && h5_accepts _ _);
    [|split; [done|by apply agree_set_heap]].
  split; [done|].
  pose proof (Ht w eq_refl) as Hfile.
  split; simpl; try apply Hs; try done.
  rewrite Hfile, !lookup_insert_eq. unfold rows_of. simpl.
  by rewrite Hf.
Qed.

Lemma process_event_agree f event s1 s2 :
  agree f s1 s2 →
  (process_event event s1).1 = (process_event event s2).1
  ∧ agree f (process_event event s1).2 (process_event event s2).2.
Proof.
  intros Hs. pose proof Hs as [Hf Hd Hl Hh Hsrc Hcal Hw Ht].
  unfold process_event, bind, attr. rewrite <- Hcal.
  destruct (self_calibrator s1) as [cal|]; [|done].
  unfold CameraCalibrator_call. rewrite <- Hh.
  destruct (CameraCalibrator_apply cal event (heap s1)) as [[d|e] h];
    [|split; [done|by apply agree_set_heap]].
  apply for_each_agree; [|by apply agree_set_heap].
  intros tel_id t1 t2. apply process_tel_agree.
Qed.

Lemma start_agree (self : Traits) f s1 s2 :
  agree f s1 s2 →
  (start self s1).1 = (start self s2).1
  ∧ agree f (start self s1).2 (start self s2).2.
Proof.
  intros Hs. pose proof Hs as [Hf Hd Hl Hh Hsrc Hcal Hw Ht].
  rewrite !start_unfold, <- Hsrc, <- Hl.
  destruct (self_event_source s1) as [source|];
    [|split; [done|by apply agree_set_log]].
  apply for_each_agree; [|by apply agree_set_log].
  intros event t1 t2. apply process_event_agree.
Qed.

Lemma finish_agree f s1 s2 :
  agree f s1 s2 →
  (finish s1).1 = (finish s2).1 ∧ agree f (finish s1).2 (finish s2).2.
Proof.
  intros Hs. pose proof Hs as [Hf Hd Hl Hh Hsrc Hcal Hw Ht].
  rewrite !finish_eq, <- Hw, <- Hl.
  destruct (self_writer s1) as [w|] eqn:Hw1; (split; [done|]).
  - split; simpl; try apply Hs; try done.
    intros w' [= <-]. simpl. by apply Ht.
  - by apply agree_set_log.
Qed.

(** [finish] writes to no file. *)
Lemma finish_disk s : disk (finish s).2 = disk s.
Proof. rewrite finish_eq. by destruct (self_writer s). Qed.

(** Releasing the writer writes to no file. *)
Lemma release_writer_disk s : disk (release_writer s).2 = disk s.
Proof. rewrite release_writer_eq. simpl. by destruct (self_writer s). Qed.

Lemma release_writer_agree f s1 s2 :
  agree f s1 s2 → agree f (release_writer s1).2 (release_writer s2).2.
Proof.
  intros Hs. pose proof Hs as [Hf Hd Hl Hh Hsrc Hcal Hw Ht].
  rewrite !release_writer_eq, <- Hw. simpl.
  destruct (self_writer s1) as [w|] eqn:Hw1; [|done].
  split; simpl; try apply Hs; try done.
  intros w' [= <-]. simpl. by apply Ht.
Qed.

(** A run in a new process touches no file but its output file. *)
Lemma run_other_files (self : Traits) (d : gmap string H5File) g :
  g ≠ outfile self → disk (run self (boot d)).2 !! g = d !! g.
Proof.
  intros Hg. rewrite run_eq.
  destruct (setup self (boot d)) as [[[]|e] s1] eqn:Hsetup.
  - destruct (setup_ok_inv _ _ _ Hsetup) as (source & Hsrc & Hcreate).
    destruct (setup_ok self (boot d) source Hsrc Hcreate)
      as (s1' & Hsetup' & _ & _ & Hw & Hdisk & _).
    rewrite Hsetup in Hsetup'. injection Hsetup' as <-.
    assert (disk (start self s1).2 !! g = d !! g) as Hstart.
    { rewrite (writes_others _ _ _ (start_writes self s1)).
      - rewrite Hdisk. simpl. by apply lookup_insert_ne.
      - intros w. rewrite Hw. intros [= <-]. simpl. congruence. }
    destruct (start self s1) as [[[]|e] s2]; simpl in Hstart.
    + by rewrite finish_disk.
    + simpl. by rewrite release_writer_disk.
  - apply setup_raise in Hsetup as (_ & Hdisk & _). simpl.
    by rewrite release_writer_disk, Hdisk.
Qed.

(** Once [setup] has opened the output file, what the run makes of it
    does not depend on what the disk held. *)
Lemma run_same_output (self : Traits) (d d' : gmap string H5File) source :
  EventSource_from_url (infile self) = Ok source →
  h5_creatable (outfile self) = true →
  (run self (boot d)).1 = (run self (boot d')).1
  ∧ agree (outfile self) (run self (boot d)).2 (run self (boot d')).2.
Proof.
  intros Hsrc Hcreate. rewrite !run_eq, !setup_eq, Hsrc. cbn zeta.
  rewrite Hcreate.
  match goal with
  | |- context [start self ?a] =>
      match goal with
      | |- context [start self ?b] =>
          assert_fails (constr_eq a b);
          assert (agree (outfile self) a b) as Hs
      end
  end.
  { split; simpl; try done.
    - by rewrite !lookup_insert_eq.
    - by intros w [= <-]. }
  destruct (start_agree self _ _ _ Hs) as [Hr Ha].
  destruct (start self _) as [[[]|e1] t1], (start self _) as [[[]|e2] t2];
    simpl in *; try discriminate.
  - by apply finish_agree.
  - split; [done|]. by apply release_writer_agree.
Qed.

(** C6.  Running the tool again on the disk a first run has left gives
    the same outcome and the same display, and leaves the disk as it is:
    the output file has the content the first run gave it, and no other
    file is touched.  What the disk held before does not matter either:
    the writer is opened with [overwrite=True], so once a run has opened
    its writer, its output file is the one a run on any other disk
    gives. *)
Theorem rerun_is_idempotent (self : Traits) (d : gmap string H5File) :
  (run self (boot (disk (run self (boot d)).2))).1 = (run self (boot d)).1
  ∧ disk (run self (boot (disk (run self (boot d)).2))).2
    = disk (run self (boot d)).2
  ∧ display (run self (boot (disk (run self (boot d)).2))).2
    = display (run self (boot d)).2
  ∧ ∀ d', is_Some (self_writer (run self (boot d)).2) →
          disk (run self (boot d')).2 !! outfile self
          = disk (run self (boot d)).2 !! outfile self.
Proof.
  destruct (EventSource_from_url (infile self)) as [source|e] eqn:Hsrc.
  - destruct (h5_creatable (outfile self)) eqn:Hcreate.
    + destruct (run_same_output self (disk (run self (boot d)).2) d source
                  Hsrc Hcreate) as [Hr Ha].
      split; [done|]. split; [|split; [by destruct Ha|]].
      * apply map_eq. intros g.
        destruct (decide (g = outfile self)) as [->|Hg].
        -- by destruct Ha.
        -- by apply run_other_files.
      * intros d' _.
        by destruct (run_same_output self d' d source Hsrc Hcreate)
          as [_ []].
    + assert (∀ d0, run self (boot d0)
                    = (Raise OSError,
                       set_calibrator
                         (Some {| cal_subarray := subarray source |})
                         (set_event_source (Some source)
                            (set_log ["Configure EventSource..."]
                               (boot d0))))) as Hrun.
      { intros d0. rewrite run_eq, setup_eq, Hsrc. cbn zeta.
        rewrite Hcreate. try rewrite release_writer_eq. done. }
      rewrite !Hrun. simpl. repeat split; try done;
        by intros d' [w Hw].
  - assert (∀ d0, run self (boot d0)
                  = (Raise e, set_log ["Configure EventSource..."]
                                (boot d0))) as Hrun.
    { intros d0. rewrite run_eq, setup_eq, Hsrc. cbn zeta.
      try rewrite release_writer_eq. done. }
    rewrite !Hrun. simpl. repeat split; try done;
      by intros d' [w Hw].
Qed.
End Rerun.

(** * Further properties of the tool *)

(** ** The order of the rows, and what a failure leaves *)

Section Order.
Context `{Toolkit}.

(** A pass of the telescope loop that completes has written the row of its
    event and telescope, and kept the source and the writer. *)
Lemma process_tel_ok event tel_id s s' source w :
  self_event_source s = Some source →
  self_writer s = Some w →
  process_tel event tel_id s = (Ok tt, s') →
  self_event_source s' = Some source
  ∧ self_writer s' = Some w
  ∧ ∃ row, rows_of (filename w) s' = rows_of (filename w) s ++ [row]
           ∧ row_of_pair source (group_name w) row (event, tel_id).
Proof.
  intros Hsrc Hw. unfold process_tel, bind, attr, getitem.
  rewrite Hsrc.
  destruct (tel (subarray source) !! tel_id) as [td|] eqn:Htd;
    [|discriminate].
  destruct (dl1_tels (dl1 event) !! tel_id) as [d|]; [|discriminate].
  destruct (clean_image_state (geometry (camera td)) (image d) s) as [h Hh].
  destruct (clean_image _ _ s) as [[c|e] s1]; simpl in Hh; subst s1;
    [|discriminate].
  pose proof (parametrise_state (geometry (camera td)) c (set_heap h s)) as Hp.
  destruct (parametrise _ _ _) as [[params|e] s2]; simpl in Hp; subst s2;
    [|discriminate].
  cbn [self_writer set_heap]. rewrite Hw.
  unfold HDF5TableWriter_write.
  destruct (is_open w && h5_accepts _ _); [|discriminate].
  intros [= <-]. split; [done|]. split; [done|].
  eexists. split.
  - unfold rows_of at 1. simpl. rewrite lookup_insert_eq. reflexivity.
  - split; [done|]. by exists td, params.
Qed.

(** A loop whose passes, when they complete, append the rows of the pairs
    [f x] appends, when it completes, the rows of all of them in order. *)
Lemma for_each_rows {A} (source : EventSource) (w : HDF5TableWriter)
    (f : A → list (Event * nat)) (xs : list A) (body : A → M unit) :
  (∀ x s s',
     self_event_source s = Some source → self_writer s = Some w →
     body x s = (Ok tt, s') →
     self_event_source s' = Some source ∧ self_writer s' = Some w
     ∧ ∃ new, rows_of (filename w) s' = rows_of (filename w) s ++ new
              ∧ Forall2 (row_of_pair source (group_name w)) new (f x)) →
  ∀ s s',
    self_event_source s = Some source → self_writer s = Some w →
    for_each xs body s = (Ok tt, s') →
    self_event_source s' = Some source ∧ self_writer s' = Some w
    ∧ ∃ new, rows_of (filename w) s' = rows_of (filename w) s ++ new
             ∧ Forall2 (row_of_pair source (group_name w)) new
                 (flat_map f xs).
Proof.
  intros Hbody. induction xs as [|x xs IH]; intros s s' Hsrc Hw; simpl.
  - intros [= <-]. split; [done|]. split; [done|].
    exists []. by rewrite app_nil_r.
  - intros Hrun. apply bind_ok_inv in Hrun as ([] & s1 & Hx & Hrest).
    destruct (Hbody x s s1 Hsrc Hw Hx) as (Hsrc1 & Hw1 & new1 & E1 & F1).
    destruct (IH s1 s' Hsrc1 Hw1 Hrest) as (Hsrc' & Hw' & new2 & E2 & F2).
    split; [done|]. split; [done|].
    exists (new1 ++ new2). split.
    + by rewrite E2, E1, app_assoc.
    + by apply Forall2_app.
Qed.

Lemma process_event_ok event s s' source w :
  self_event_source s = Some source →
  self_writer s = Some w →
  process_event event s = (Ok tt, s') →
  self_event_source s' = Some source ∧ self_writer s' = Some w
  ∧ ∃ new, rows_of (filename w) s' = rows_of (filename w) s ++ new
           ∧ Forall2 (row_of_pair source (group_name w)) new
               (map (pair event) (tels_with_data (dl0 event))).
Proof.
  intros Hsrc Hw. unfold process_event, bind, attr.
  destruct (self_calibrator s) as [cal|]; [|discriminate].
  unfold CameraCalibrator_call.
  destruct (CameraCalibrator_apply cal event (heap s)) as [[d|e] h];
    [|discriminate].
  cbn [dl0]. intros Hloop.
  assert (∀ tel_id t t',
            self_event_source t = Some source → self_writer t = Some w →
            process_tel {| r0 := r0 event; mc := mc event;
                           dl0 := dl0 event; dl1 := d |} tel_id t
            = (Ok tt, t') →
            self_event_source t' = Some source ∧ self_writer t' = Some w
            ∧ ∃ new, rows_of (filename w) t' = rows_of (filename w) t ++ new
                     ∧ Forall2 (row_of_pair source (group_name w)) new
                         [(event, tel_id)]) as Hbody.
  { intros tel_id t t' Ht1 Ht2 Ht3.
    destruct (process_tel_ok _ _ _ _ _ _ Ht1 Ht2 Ht3)
      as (? & ? & row & ? & Hrow).
    split; [done|]. split; [done|]. exists [row]. split; [done|].
    constructor; [exact Hrow|constructor]. }
  destruct (for_each_rows source w (λ tel_id, [(event, tel_id)])
              (tels_with_data (dl0 event)) _ Hbody
              (set_heap h s) s' Hsrc Hw Hloop)
    as (Hsrc' & Hw' & new & Hnew & Hall).
  split; [done|]. split; [done|]. exists new. split; [exact Hnew|].
  clear -Hall. revert new Hall.
  induction (tels_with_data (dl0 event)) as [|t ts IH]; intros new Hall;
    simpl in *; [done|].
  inversion Hall as [|row et new' ets Hrow Hrest]; subst.
  constructor; [exact Hrow|by apply IH].
Qed.

(** X1.  When the source opens and the loop of [start] completes, the
    rows of the output file are, in this order, those of the events in the
    order the source yields them and, within an event, of its telescopes
    with data in the order of [tels_with_data]: the i-th row is in the
    table of the camera of the i-th telescope, which the subarray
    describes, and holds the raw and the simulation container of its
    event. *)
Theorem rows_in_reading_order (self : Traits) (s : State)
    (source : EventSource) :
  EventSource_from_url (infile self) = Ok source →
  ((setup self ;; start self) s).1 = Ok tt →
  Forall2 (row_of_pair source "image_infos")
    (rows_of (outfile self) ((setup self ;; start self) s).2)
    (event_telescope_pairs source).
Proof.
  intros Hsrc Hok.
  destruct (setup self s) as [[[]|e] s1] eqn:Hsetup.
  - destruct (setup_ok_inv _ _ _ Hsetup) as (source' & Hsrc' & Hcreate).
    rewrite Hsrc in Hsrc'. injection Hsrc' as <-.
    destruct (setup_ok self s source Hsrc Hcreate)
      as (s1' & Hsetup' & Hes & _ & Hw & Hdisk & _).
    rewrite Hsetup in Hsetup'. injection Hsetup' as <-.
    rewrite (bind_ok _ _ _ _ _ Hsetup) in Hok |- *.
    rewrite start_unfold, Hes in Hok |- *.
    destruct (for_each _ _ _) as [r s2] eqn:Hloop. simpl in Hok. subst r.
    destruct (for_each_rows source _
                (λ event, map (pair event) (tels_with_data (dl0 event)))
                (events source) process_event
                (λ event t t', process_event_ok event t t' source _)
                (set_log (log s1 ++ ["Loop on events..."]) s1) s2
                Hes Hw Hloop)
      as (_ & _ & new & Hnew & Hall).
    simpl in Hnew, Hall |- *. rewrite Hnew.
    unfold rows_of at 1. simpl. by rewrite Hdisk, lookup_insert_eq.
  - by rewrite (bind_raise _ _ _ _ _ Hsetup) in Hok.
Qed.

(** X2.  What a failure leaves.  When the body of the event loop raises
    at some event after completing the events before it, [start] ends
    with the rows it had written: the writer's file is the file [start]
    found, then one row per telescope with data of every event before the
    failing one, then at most the rows of the failing event's telescopes.
    Nothing written is taken back. *)
Theorem rows_before_failure_stay (self : Traits) (s : State)
    (source : EventSource) (w : HDF5TableWriter)
    (done : list Event) (event : Event) (rest : list Event)
    (s1 : State) (e : Exception) (s2 : State) :
  self_event_source s = Some source →
  self_writer s = Some w →
  events source = done ++ event :: rest →
  for_each done process_event
    (set_log (log s ++ ["Loop on events..."]) s) = (Ok tt, s1) →
  process_event event s1 = (Raise e, s2) →
  (start self s).1 = Raise e
  ∧ (∃ new, rows_of (filename w) (start self s).2
            = rows_of (filename w) s ++ new)
  ∧ written w s + telescopes_in done ≤ written w (start self s).2
    ≤ written w s + telescopes_in done + length (tels_with_data (dl0 event)).
Proof.
  intros Hsrc Hw Hevents Hdone Hevent.
  destruct (writes_rows _ _ _ (start_writes self s) w Hw) as (new & Hnew & _).
  assert (start self s = (Raise e, s2)) as Hstart.
  { rewrite start_unfold, Hsrc, Hevents.
    by apply for_each_raise with (s1 := s1). }
  split; [by rewrite Hstart|]. split; [by exists new|].
  rewrite Hstart. simpl.
  destruct (for_each_count (written w) (λ s0, self_writer s0 = Some w)
              (λ event, length (tels_with_data (dl0 event))) done
              process_event
              (λ ev s0 Hs0, process_event_count w ev s0 Hs0)
              (set_log (log s ++ ["Loop on events..."]) s) Hw)
    as (Hw1 & _ & Hcount).
  rewrite Hdone in Hw1, Hcount. simpl in Hw1, Hcount.
  specialize (Hcount eq_refl).
  destruct (process_event_count w event s1 Hw1) as (_ & Hle & _).
  rewrite Hevent in Hle. simpl in Hle.
  change (written w (set_log (log s ++ ["Loop on events..."]) s))
    with (written w s) in Hcount.
  unfold telescopes_in. lia.
Qed.
End Order.

(** ** The log, the display, the files, the attributes *)

Section Effects.
Context `{Toolkit}.

Lemma process_tel_log event tel_id s :
  log (process_tel event tel_id s).2 = log s.
Proof.
  unfold process_tel, bind, attr, getitem.
  destruct (self_event_source s) as [src|]; [|done].
  destruct (tel (subarray src) !! tel_id) as [td|]; [|done].
  destruct (dl1_tels (dl1 event) !! tel_id) as [d|]; [|done].
  destruct (clean_image_state (geometry (camera td)) (image d) s) as [h Hh].
  destruct (clean_image _ _ s) as [[c|e] s1]; simpl in Hh; subst s1; [|done].
  pose proof (parametrise_state (geometry (camera td)) c (set_heap h s)) as Hp.
  destruct (parametrise _ _ _) as [[params|e] s2]; simpl in Hp; subst s2;
    [|done].
  cbn [self_writer set_heap]. destruct (self_writer s) as [w|]; [|done].
  unfold HDF5TableWriter_write.
  by destruct (is_open w && h5_accepts _ _).
Qed.

Lemma process_event_log event s : log (process_event event s).2 = log s.
Proof.
  unfold process_event, bind, attr.
  destruct (self_calibrator s) as [cal|]; [|done].
  unfold CameraCalibrator_call.
  destruct (CameraCalibrator_apply cal event (heap s)) as [[d|e] h]; [|done].
  change (log s) with (log (set_heap h s)).
  apply (for_each_steps (λ t t', log t' = log t)); [done|congruence|].
  intros tel_id _ t. apply process_tel_log.
Qed.

(** [start] logs its one message and nothing else. *)
Lemma start_log (self : Traits) s :
  log (start self s).2 = log s ++ ["Loop on events..."].
Proof.
  rewrite start_unfold. destruct (self_event_source s) as [source|]; [|done].
  change (log s ++ ["Loop on events..."])
    with (log (set_log (log s ++ ["Loop on events..."]) s)).
  apply (for_each_steps (λ t t', log t' = log t)); [done|congruence|].
  intros event _ t. apply process_event_log.
Qed.

Lemma setup_log (self : Traits) s :
  log (setup self s).2 = log s ++ ["Configure EventSource..."].
Proof.
  rewrite setup_eq. cbn zeta.
  destruct (EventSource_from_url (infile self)) as [source|e]; [|done].
  by destruct (h5_creatable (outfile self)).
Qed.

Lemma finish_log s : log (finish s).2 = log s ++ ["End of job."].
Proof. rewrite finish_eq. by destruct (self_writer s). Qed.

(** X3.  Each method logs its one message and nothing else, whether it
    completes or raises: nothing in the two loops of [start] logs, and a
    method that raises has logged before.  After [setup] and [start] in
    this order the log has grown by their two messages, in this order. *)
Theorem each_method_logs_once (self : Traits) (s : State) :
  log (setup self s).2 = log s ++ ["Configure EventSource..."]
  ∧ log (start self s).2 = log s ++ ["Loop on events..."]
  ∧ log (finish s).2 = log s ++ ["End of job."]
  ∧ (is_Some (self_writer ((setup self ;; start self) s).2) →
     self_writer s = None →
     log ((setup self ;; start self) s).2
     = log s ++ ["Configure EventSource..."; "Loop on events..."]).
Proof.
  split; [apply setup_log|]. split; [apply start_log|].
  split; [apply finish_log|].
  intros Hwriter Hnone. unfold bind in Hwriter |- *.
  pose proof (setup_log self s) as Hlog.
  destruct (setup self s) as [[[]|e] s1] eqn:Hsetup; simpl in *.
  - rewrite start_log, Hlog. by rewrite <- app_assoc.
  - apply setup_raise in Hsetup as (Hw & _).
    rewrite Hw, Hnone in Hwriter. by destruct Hwriter.
Qed.

Lemma finish_display s : display (finish s).2 = display s.
Proof. rewrite finish_eq. by destruct (self_writer s). Qed.

Lemma setup_display (self : Traits) s :
  display (setup self s).2 = display s.
Proof.
  rewrite setup_eq. cbn zeta.
  destruct (EventSource_from_url (infile self)) as [source|e]; [|done].
  by destruct (h5_creatable (outfile self)).
Qed.

(** X4.  The [progress] option changes nothing: [start] does the same
    with it set and unset, outcome and state, and no method displays
    anything, whatever the option. *)
Theorem progress_option_has_no_effect (url out : string) (s : State) :
  start {| infile := url; outfile := out; progress := true |} s
  = start {| infile := url; outfile := out; progress := false |} s
  ∧ ∀ flag,
      display (setup {| infile := url; outfile := out;
                        progress := flag |} s).2 = display s
      ∧ display (start {| infile := url; outfile := out;
                          progress := flag |} s).2 = display s
      ∧ display (finish s).2 = display s.
Proof.
  split; [by rewrite !start_unfold|].
  intros flag. split; [apply setup_display|].
  split; [|apply finish_display].
  apply (writes_display _ _ _ (start_writes _ s)).
Qed.

(** X5.  A source that opens and yields no event: [setup] and [start]
    complete, the output file is there and empty, whatever it held, and
    [finish] then completes and closes the writer. *)
Theorem no_events_give_an_empty_file (self : Traits) (s : State)
    (source : EventSource) :
  EventSource_from_url (infile self) = Ok source →
  events source = [] →
  h5_creatable (outfile self) = true →
  ((setup self ;; start self) s).1 = Ok tt
  ∧ disk ((setup self ;; start self) s).2 = <[outfile self := []]> (disk s)
  ∧ (finish ((setup self ;; start self) s).2).1 = Ok tt
  ∧ self_writer (finish ((setup self ;; start self) s).2).2
    = Some {| filename := outfile self; group_name := "image_infos";
              is_open := false |}.
Proof.
  intros Hsrc Hevents Hcreate.
  unfold bind at 1 2 3 4. rewrite setup_eq, Hsrc. cbn zeta. rewrite Hcreate.
  rewrite start_unfold. cbn [self_event_source set_writer set_disk
    set_calibrator set_event_source set_log]. rewrite Hevents. simpl.
  done.
Qed.

(** X6.  No file but the output file is touched: [setup] followed by
    [start] leaves every other file as it was, whatever the outcome, and
    [finish] writes to no file at all. *)
Theorem only_the_outfile_is_touched (self : Traits) (s : State)
    (g : string) :
  g ≠ outfile self →
  disk ((setup self ;; start self) s).2 !! g = disk s !! g
  ∧ ∀ t, disk (finish t).2 = disk t.
Proof.
  intros Hg. split; [|apply finish_disk].
  destruct (setup self s) as [[[]|e] s1] eqn:Hsetup.
  - destruct (setup_ok_inv _ _ _ Hsetup) as (source & Hsrc & Hcreate).
    destruct (setup_ok self s source Hsrc Hcreate)
      as (s1' & Hsetup' & _ & _ & Hw & Hdisk & _).
    rewrite Hsetup in Hsetup'. injection Hsetup' as <-.
    rewrite (bind_ok _ _ _ _ _ Hsetup).
    rewrite (writes_others _ _ _ (start_writes self s1)).
    + rewrite Hdisk. by apply lookup_insert_ne.
    + intros w. rewrite Hw. intros [= <-]. simpl. congruence.
  - rewrite (bind_raise _ _ _ _ _ Hsetup).
    apply setup_raise in Hsetup as (_ & Hdisk & _). simpl.
    by rewrite Hdisk.
Qed.

(** X7.  [start] and [finish] need [setup]: in a new process, where the
    attributes [event_source] and [writer] are not set, each logs its
    message and raises [AttributeError]; no file is created or touched. *)
Theorem start_and_finish_need_setup (self : Traits)
    (d : gmap string H5File) :
  start self (boot d)
  = (Raise AttributeError, set_log ["Loop on events..."] (boot d))
  ∧ finish (boot d)
    = (Raise AttributeError, set_log ["End of job."] (boot d))
  ∧ disk (start self (boot d)).2 = d
  ∧ disk (finish (boot d)).2 = d.
Proof.
  assert (start self (boot d)
          = (Raise AttributeError, set_log ["Loop on events..."] (boot d)))
    as Hstart by by rewrite start_unfold.
  assert (finish (boot d)
          = (Raise AttributeError, set_log ["End of job."] (boot d)))
    as Hfinish by by rewrite finish_eq.
  by rewrite Hstart, Hfinish.
Qed.

(** X8.  [start] keeps the attributes of the tool, whatever its outcome:
    the event source, the calibrator and the writer are the objects
    [setup] made, and the writer is as open as it was. *)
Theorem start_keeps_attributes (self : Traits) (s : State) :
  self_event_source (start self s).2 = self_event_source s
  ∧ self_calibrator (start self s).2 = self_calibrator s
  ∧ self_writer (start self s).2 = self_writer s.
Proof. by destruct (start_writes self s). Qed.
End Effects.

(** ** Masks that keep nothing, and masks that keep everything *)

Section Masks.
Context `{Toolkit}.

Lemma cleaned_pixels_none_kept (mask : list bool) (px : list pixel) :
  length mask = length px →
  Forall (λ b, b = false) mask →
  cleaned_pixels mask px = replicate (length px) pixel_zero.
Proof.
  intros Hlen Hmask. apply list_eq. intros i.
  rewrite cleaned_pixels_lookup.
  destruct (decide (i < length px)) as [Hi|Hi].
  - rewrite lookup_replicate_2 by done.
    destruct (lookup_lt_is_Some_2 mask i) as [b Hb]; [lia|].
    destruct (lookup_lt_is_Some_2 px i) as [x Hx]; [done|].
    rewrite Hb, Hx.
    rewrite Forall_lookup in Hmask. by rewrite (Hmask i b Hb).
  - rewrite (lookup_ge_None_2 (replicate _ _)) by (rewrite length_replicate; lia).
    rewrite (lookup_ge_None_2 mask) by lia. done.
Qed.

Lemma cleaned_pixels_all_kept (mask : list bool) (px : list pixel) :
  length mask = length px →
  Forall (λ b, b = true) mask →
  cleaned_pixels mask px = px.
Proof.
  intros Hlen Hmask. apply list_eq. intros i.
  rewrite cleaned_pixels_lookup.
  destruct (mask !! i) as [b|] eqn:Hb.
  - rewrite Forall_lookup in Hmask. rewrite (Hmask i b Hb).
    by destruct (px !! i).
  - symmetry. apply lookup_ge_None_2. rewrite <- Hlen.
    by apply lookup_ge_None_1.
Qed.

(** X9.  The two ends of the cleaning.  When cleaning an image
    completes and the mask kept no pixel, the array handed on to the
    parametrisation is all zeros, of the length of the image; when the
    mask kept every pixel, it is a plain copy of the image. *)
Theorem cleaning_at_the_extremes (geom : CameraGeometry) (image : loc)
    (s : State) (c : loc) (s1 : State) (px : list pixel)
    (mask : list bool) :
  clean_image geom image s = (Ok c, s1) →
  heap s !! image = Some px →
  tailcuts_clean geom px 10 5 = Ok mask →
  (Forall (λ b, b = false) mask →
   heap s1 !! c = Some (replicate (length px) pixel_zero))
  ∧ (Forall (λ b, b = true) mask → heap s1 !! c = Some px).
Proof.
  intros Hclean Hpx Hmask.
  destruct (clean_image_ok _ _ _ _ _ Hclean)
    as (px' & mask' & Hpx' & Hmask' & Hlen & _ & ->).
  rewrite Hpx in Hpx'. injection Hpx' as <-.
  rewrite Hmask in Hmask'. injection Hmask' as <-.
  simpl. rewrite lookup_insert_eq. split; intros Hall.
  - by rewrite cleaned_pixels_none_kept.
  - by rewrite cleaned_pixels_all_kept.
Qed.

(** X10.  An image that cannot be parametrised ends the pass: when
    [hillas_parameters] raises on the cleaned copy, the body of the
    telescope loop raises the same exception, in the state cleaning left,
    and no row is written for the telescope. *)
Theorem parametrisation_failure_ends_the_pass (event : Event) (tel_id : nat)
    (s : State) (source : EventSource) (telescope : TelescopeDescription)
    (d : DL1CameraContainer) (c : loc) (s1 : State) (cleaned : list pixel)
    (e : Exception) :
  self_event_source s = Some source →
  tel (subarray source) !! tel_id = Some telescope →
  dl1_tels (dl1 event) !! tel_id = Some d →
  clean_image (geometry (camera telescope)) (image d) s = (Ok c, s1) →
  heap s1 !! c = Some cleaned →
  hillas_parameters (geometry (camera telescope)) cleaned = Raise e →
  process_tel event tel_id s = (Raise e, s1) ∧ disk s1 = disk s.
Proof.
  intros Hsrc Htel Hd Hclean Hc Hhillas. split.
  - unfold process_tel, bind, attr, getitem.
    rewrite Hsrc, Htel, Hd, Hclean.
    unfold parametrise, bind, ndarray_read, lift. by rewrite Hc, Hhillas.
  - destruct (clean_image_state (geometry (camera telescope)) (image d) s)
      as [h Hh].
    rewrite Hclean in Hh. simpl in Hh. by rewrite Hh.
Qed.
End Masks.

(** * The loops and their bodies, step by step *)

Section Steps.
Context `{Toolkit}.

(** A loop completes exactly when every pass completes, each from the
    state the pass before left. *)
Lemma for_each_ok_iff {A} (body : A → M unit) (xs : list A) s s' :
  for_each xs body s = (Ok tt, s') ↔ all_complete body xs s s'.
Proof.
  revert s. induction xs as [|x xs IH]; intros s; simpl.
  - unfold ret. split; [by intros [= <-]|by intros ->].
  - split.
    + intros Hrun. apply bind_ok_inv in Hrun as ([] & s1 & Hx & Hrest).
      exists s1. split; [done|]. by apply IH.
    + intros (s1 & Hx & Hrest). rewrite (bind_ok _ _ _ _ _ Hx).
      by apply IH.
Qed.

(** A loop raises exactly when some pass raises after the passes before
    it completed: with that pass's exception, in the state it left. *)
Lemma for_each_raise_iff {A} (body : A → M unit) (xs : list A) s e s' :
  for_each xs body s = (Raise e, s')
  ↔ ∃ pre x post s1,
      xs = pre ++ x :: post
      ∧ all_complete body pre s s1
      ∧ body x s1 = (Raise e, s').
Proof.
  split.
  - revert s. induction xs as [|x xs IH]; intros s; simpl; [discriminate|].
    intros Hrun. apply bind_inv in Hrun as [(a & s1 & Hx & Hrest)|(e' & Hx & ?)].
    + destruct a.
      destruct (IH s1 Hrest) as (pre & y & post & s2 & -> & Hpre & Hy).
      exists (x :: pre), y, post, s2. split; [done|]. split; [|done].
      simpl. eauto.
    + simplify_eq. exists [], x, xs, s. by simpl.
  - intros (pre & x & post & s1 & -> & Hpre & Hx).
    apply for_each_raise with (s1 := s1); [|done].
    by apply for_each_ok_iff.
Qed.

(** The body of the telescope loop, step by step: each step that raises
    ends the pass with its exception. *)
Lemma process_tel_eq event tel_id s :
  process_tel event tel_id s =
  match self_event_source s with
  | None => (Raise AttributeError, s)
  | Some source =>
      match tel (subarray source) !! tel_id with
      | None => (Raise KeyError, s)
      | Some telescope =>
          match dl1_tels (dl1 event) !! tel_id with
          | None => (Raise KeyError, s)
          | Some d =>
              match clean_image (geometry (camera telescope)) (image d) s with
              | (Raise e, s1) => (Raise e, s1)
              | (Ok c, s1) =>
                  match parametrise (geometry (camera telescope)) c s1 with
                  | (Raise e, s2) => (Raise e, s2)
                  | (Ok params, s2) =>
                      match self_writer s2 with
                      | None => (Raise AttributeError, s2)
                      | Some w =>
                          HDF5TableWriter_write w
                            (camera_name (geometry (camera telescope)))
                            [R0 (r0 event); MC (mc event); Hillas params] s2
                      end
                  end
              end
          end
      end
  end.
Proof.
  unfold process_tel, bind, attr, getitem.
  destruct (self_event_source s) as [source|]; [|done].
  destruct (tel (subarray source) !! tel_id) as [td|]; [|done].
  destruct (dl1_tels (dl1 event) !! tel_id) as [d|]; [|done].
  destruct (clean_image _ _ s) as [[c|e] s1]; [|done].
  destruct (parametrise _ c s1) as [[params|e] s2]; [|done].
  by destruct (self_writer s2).
Qed.

(** A pass that completes went through every step. *)
Lemma process_tel_steps event tel_id s s' :
  process_tel event tel_id s = (Ok tt, s') →
  ∃ source telescope d c s1 params w,
    located s event tel_id source telescope d
    ∧ clean_image (geometry (camera telescope)) (image d) s = (Ok c, s1)
    ∧ parametrise (geometry (camera telescope)) c s1 = (Ok params, s1)
    ∧ self_writer s1 = Some w
    ∧ is_open w
      && h5_accepts (camera_name (geometry (camera telescope)))
           [R0 (r0 event); MC (mc event); Hillas params] = true
    ∧ s' = set_disk (<[filename w :=
                        rows_of (filename w) s1
                        ++ [row_written w telescope event params]]>
                       (disk s1)) s1.
Proof.
  rewrite process_tel_eq.
  destruct (self_event_source s) as [source|] eqn:Hsrc; [|discriminate].
  destruct (tel (subarray source) !! tel_id) as [td|] eqn:Htd;
    [|discriminate].
  destruct (dl1_tels (dl1 event) !! tel_id) as [d|] eqn:Hd; [|discriminate].
  destruct (clean_image _ _ s) as [[c|e] s1] eqn:Hclean; [|discriminate].
  pose proof (parametrise_state (geometry (camera td)) c s1) as Hp.
  destruct (parametrise _ c s1) as [[params|e] s2] eqn:Hparams;
    simpl in Hp; subst s2; [|discriminate].
  destruct (self_writer s1) as [w|] eqn:Hw; [|discriminate].
  unfold HDF5TableWriter_write.
  destruct (is_open w && h5_accepts _ _) eqn:Haccept; [|discriminate].
  intros [= <-]. exists source, td, d, c, s1, params, w.
  by repeat split.
Qed.

(** A pass that raises has written nothing. *)
Lemma process_tel_raise_disk event tel_id s e s' :
  process_tel event tel_id s = (Raise e, s') → disk s' = disk s.
Proof.
  rewrite process_tel_eq.
  destruct (self_event_source s) as [source|]; [|by intros [= _ <-]].
  destruct (tel (subarray source) !! tel_id) as [td|]; [|by intros [= _ <-]].
  destruct (dl1_tels (dl1 event) !! tel_id) as [d|]; [|by intros [= _ <-]].
  destruct (clean_image_state (geometry (camera td)) (image d) s) as [h Hh].
  destruct (clean_image _ _ s) as [[c|e1] s1]; simpl in Hh; subst s1;
    [|by intros [= _ <-]].
  pose proof (parametrise_state (geometry (camera td)) c (set_heap h s)) as Hp.
  destruct (parametrise _ c _) as [[params|e1] s2]; simpl in Hp; subst s2;
    [|by intros [= _ <-]].
  cbn [self_writer set_heap].
  destruct (self_writer s) as [w|]; [|by intros [= _ <-]].
  unfold HDF5TableWriter_write.
  destruct (is_open w && h5_accepts _ _); [discriminate|].
  by intros [= _ <-].
Qed.

(** The body of the event loop, step by step. *)
Lemma process_event_eq event s :
  process_event event s =
  match self_calibrator s with
  | None => (Raise AttributeError, s)
  | Some cal =>
      match CameraCalibrator_apply cal event (heap s) with
      | (Raise e, h) => (Raise e, set_heap h s)
      | (Ok d, h) =>
          for_each (tels_with_data (dl0 event))
            (process_tel {| r0 := r0 event; mc := mc event;
                            dl0 := dl0 event; dl1 := d |})
            (set_heap h s)
      end
  end.
Proof.
  unfold process_event, bind, attr, CameraCalibrator_call.
  destruct (self_calibrator s) as [cal|]; [|done].
  by destruct (CameraCalibrator_apply cal event (heap s)) as [[d|e] h].
Qed.

(** C7.  No exception is recovered anywhere in [setup], [start] and
    [finish]; nothing is caught, retried or skipped.

    [setup] raises what opening the event source raises, before anything
    is opened or written, and [OSError] when the output file cannot be
    created.  Each of the two loops raises exactly when one of its passes
    raises after the passes before it completed, with that pass's exception
    and in the state that pass left, so that no later item is processed;
    it completes exactly when every pass completes.  The body of the event
    loop raises what the calibrator raises, and what the telescope loop
    raises.  The body of the telescope loop raises at the first of its
    steps that fails: an attribute not set, a telescope the subarray or
    the event's dl1 container does not know, an image that is no array, the
    cleaning, the parametrisation, the writer; and it completes only when
    every step completed.  [finish] raises when there is no writer. *)
Theorem failures_propagate (self : Traits) :
  (∀ s e,
     EventSource_from_url (infile self) = Raise e →
     (setup self s).1 = Raise e
     ∧ self_writer (setup self s).2 = self_writer s
     ∧ disk (setup self s).2 = disk s)
  ∧ (∀ s source,
       EventSource_from_url (infile self) = Ok source →
       h5_creatable (outfile self) = false →
       (setup self s).1 = Raise OSError
       ∧ self_writer (setup self s).2 = self_writer s
       ∧ disk (setup self s).2 = disk s)
  ∧ (∀ s e s',
       start self s = (Raise e, s')
       ↔ (self_event_source s = None ∧ e = AttributeError
          ∧ s' = set_log (log s ++ ["Loop on events..."]) s)
         ∨ ∃ source done event rest s1,
             self_event_source s = Some source
             ∧ events source = done ++ event :: rest
             ∧ all_complete process_event done
                 (set_log (log s ++ ["Loop on events..."]) s) s1
             ∧ process_event event s1 = (Raise e, s'))
  ∧ (∀ s s',
       start self s = (Ok tt, s')
       ↔ ∃ source,
           self_event_source s = Some source
           ∧ all_complete process_event (events source)
               (set_log (log s ++ ["Loop on events..."]) s) s')
  ∧ (∀ event s e s',
       process_event event s = (Raise e, s')
       ↔ (self_calibrator s = None ∧ e = AttributeError ∧ s' = s)
         ∨ ∃ cal,
             self_calibrator s = Some cal
             ∧ ((∃ h, CameraCalibrator_apply cal event (heap s) = (Raise e, h)
                      ∧ s' = set_heap h s)
                ∨ ∃ d h done tel_id rest s1,
                    CameraCalibrator_apply cal event (heap s) = (Ok d, h)
                    ∧ tels_with_data (dl0 event) = done ++ tel_id :: rest
                    ∧ all_complete
                        (process_tel {| r0 := r0 event; mc := mc event;
                                        dl0 := dl0 event; dl1 := d |})
                        done (set_heap h s) s1
                    ∧ process_tel {| r0 := r0 event; mc := mc event;
                                     dl0 := dl0 event; dl1 := d |}
                        tel_id s1 = (Raise e, s')))
  ∧ (∀ event s s',
       process_event event s = (Ok tt, s')
       ↔ ∃ cal d h,
           self_calibrator s = Some cal
           ∧ CameraCalibrator_apply cal event (heap s) = (Ok d, h)
           ∧ all_complete
               (process_tel {| r0 := r0 event; mc := mc event;
                               dl0 := dl0 event; dl1 := d |})
               (tels_with_data (dl0 event)) (set_heap h s) s')
  ∧ (∀ event tel_id s,
       self_event_source s = None →
       process_tel event tel_id s = (Raise AttributeError, s))
  ∧ (∀ event tel_id s source,
       self_event_source s = Some source →
       tel (subarray source) !! tel_id = None →
       process_tel event tel_id s = (Raise KeyError, s))
  ∧ (∀ event tel_id s source telescope,
       self_event_source s = Some source →
       tel (subarray source) !! tel_id = Some telescope →
       dl1_tels (dl1 event) !! tel_id = None →
       process_tel event tel_id s = (Raise KeyError, s))
  ∧ (∀ event tel_id s source telescope d,
       located s event tel_id source telescope d →
       heap s !! image d = None →
       process_tel event tel_id s = (Raise AttributeError, s))
  ∧ (∀ event tel_id s source telescope d px e,
       located s event tel_id source telescope d →
       heap s !! image d = Some px →
       tailcuts_clean (geometry (camera telescope)) px 10 5 = Raise e →
       process_tel event tel_id s = (Raise e, s))
  ∧ (∀ event tel_id s source telescope d c s1 cleaned e,
       located s event tel_id source telescope d →
       clean_image (geometry (camera telescope)) (image d) s = (Ok c, s1) →
       heap s1 !! c = Some cleaned →
       hillas_parameters (geometry (camera telescope)) cleaned = Raise e →
       process_tel event tel_id s = (Raise e, s1))
  ∧ (∀ event tel_id s source telescope d c s1 params,
       located s event tel_id source telescope d →
       clean_image (geometry (camera telescope)) (image d) s = (Ok c, s1) →
       parametrise (geometry (camera telescope)) c s1 = (Ok params, s1) →
       self_writer s1 = None →
       process_tel event tel_id s = (Raise AttributeError, s1))
  ∧ (∀ event tel_id s source telescope d c s1 params w,
       located s event tel_id source telescope d →
       clean_image (geometry (camera telescope)) (image d) s = (Ok c, s1) →
       parametrise (geometry (camera telescope)) c s1 = (Ok params, s1) →
       self_writer s1 = Some w →
       is_open w
       && h5_accepts (camera_name (geometry (camera telescope)))
            [R0 (r0 event); MC (mc event); Hillas params] = false →
       process_tel event tel_id s
       = (Raise (LibraryError "HDF5TableWriter.write"), s1))
  ∧ (∀ event tel_id s s',
       process_tel event tel_id s = (Ok tt, s') →
       ∃ source telescope d c s1 params w,
         located s event tel_id source telescope d
         ∧ clean_image (geometry (camera telescope)) (image d) s = (Ok c, s1)
         ∧ parametrise (geometry (camera telescope)) c s1 = (Ok params, s1)
         ∧ self_writer s1 = Some w
         ∧ HDF5TableWriter_write w
             (camera_name (geometry (camera telescope)))
             [R0 (r0 event); MC (mc event); Hillas params] s1 = (Ok tt, s'))
  ∧ (∀ s, self_writer s = None → (finish s).1 = Raise AttributeError).
Proof.
  repeat apply conj.
  - intros s e Hsrc. rewrite setup_eq, Hsrc. done.
  - intros s source Hsrc Hcreate. rewrite setup_eq, Hsrc. cbn zeta.
    by rewrite Hcreate.
  - intros s e s'. rewrite start_unfold.
    destruct (self_event_source s) as [source|].
    + rewrite for_each_raise_iff. split.
      * intros (done & event & rest & s1 & Hev & Hdone & Hevent).
        right. by exists source, done, event, rest, s1.
      * intros [(? & _)|(source' & done & event & rest & s1 & Hsrc & Hrest)];
          [discriminate|].
        injection Hsrc as <-. by exists done, event, rest, s1.
    + split.
      * intros [= <- <-]. by left.
      * intros [(_ & -> & ->)|(source' & ? & ? & ? & ? & ? & _)];
          [done|discriminate].
  - intros s s'. rewrite start_unfold.
    destruct (self_event_source s) as [source|].
    + rewrite for_each_ok_iff. split; [by exists source|].
      by intros (source' & [= <-] & Hall).
    + split; [discriminate|]. by intros (? & ? & _).
  - intros event s e s'. rewrite process_event_eq.
    destruct (self_calibrator s) as [cal|].
    + destruct (CameraCalibrator_apply cal event (heap s)) as [[d|e1] h]
        eqn:Hrun.
      * rewrite for_each_raise_iff. split.
        -- intros (done & tel_id & rest & s1 & Htels & Hdone & Htel).
           right. exists cal. split; [done|]. right.
           by exists d, h, done, tel_id, rest, s1.
        -- intros [(? & _)|(cal' & [= <-] & [(h' & Hap & _)|Hloop])];
             [discriminate|congruence|].
           destruct Hloop
             as (d' & h' & done & tel_id & rest & s1 & Hap & Hrest).
           rewrite Hrun in Hap. injection Hap as <- <-.
           by exists done, tel_id, rest, s1.
      * split.
        -- intros [= <- <-]. right. exists cal. split; [done|]. left.
           by exists h.
        -- intros [(? & _)|(cal' & [= <-] & [(h' & Hap & ->)|Hloop])];
             [discriminate|congruence|].
           destruct Hloop as (? & ? & ? & ? & ? & ? & Hap & _).
           congruence.
    + split.
      * intros [= <- <-]. by left.
      * intros [(_ & -> & ->)|(? & ? & _)]; [done|discriminate].
  - intros event s s'. rewrite process_event_eq.
    destruct (self_calibrator s) as [cal|].
    + destruct (CameraCalibrator_apply cal event (heap s)) as [[d|e1] h]
        eqn:Hrun.
      * rewrite for_each_ok_iff. split; [by exists cal, d, h|].
        intros (cal' & d' & h' & [= <-] & Hap & Hall).
        rewrite Hrun in Hap. by injection Hap as <- <-.
      * split; [discriminate|].
        intros (cal' & d' & h' & [= <-] & Hap & _). congruence.
    + split; [discriminate|]. by intros (? & ? & ? & ? & _).
  - intros event tel_id s Hsrc. by rewrite process_tel_eq, Hsrc.
  - intros event tel_id s source Hsrc Htel.
    by rewrite process_tel_eq, Hsrc, Htel.
  - intros event tel_id s source telescope Hsrc Htel Hd.
    by rewrite process_tel_eq, Hsrc, Htel, Hd.
  - intros event tel_id s source telescope d (Hsrc & Htel & Hd) Himage.
    by rewrite process_tel_eq, Hsrc, Htel, Hd, clean_image_eq, Himage.
  - intros event tel_id s source telescope d px e (Hsrc & Htel & Hd) Hpx
      Hclean.
    by rewrite process_tel_eq, Hsrc, Htel, Hd, clean_image_eq, Hpx, Hclean.
  - intros event tel_id s source telescope d c s1 cleaned e
      (Hsrc & Htel & Hd) Hclean Hc Hhillas.
    rewrite process_tel_eq, Hsrc, Htel, Hd, Hclean, parametrise_eq, Hc.
    by rewrite Hhillas.
  - intros event tel_id s source telescope d c s1 params
      (Hsrc & Htel & Hd) Hclean Hparams Hw.
    by rewrite process_tel_eq, Hsrc, Htel, Hd, Hclean, Hparams, Hw.
  - intros event tel_id s source telescope d c s1 params w
      (Hsrc & Htel & Hd) Hclean Hparams Hw Hwrite.
    rewrite process_tel_eq, Hsrc, Htel, Hd, Hclean, Hparams, Hw.
    unfold HDF5TableWriter_write. by rewrite Hwrite.
  - intros event tel_id s s' Hrun.
    destruct (process_tel_steps _ _ _ _ Hrun)
      as (source & telescope & d & c & s1 & params & w
          & Hloc & Hclean & Hparams & Hw & Haccept & ->).
    exists source, telescope, d, c, s1, params, w.
    repeat split; try done; try apply Hloc.
    unfold HDF5TableWriter_write. by rewrite Haccept.
  - intros s Hw. by rewrite finish_eq, Hw.
Qed.

(** A telescope loop of one row per pass is a [map] over the telescopes. *)
Lemma flat_map_singleton {A B} (g : A → B) (l : list A) :
  flat_map (λ x, [g x]) l = map g l.
Proof. induction l as [|x l IH]; simpl; [done|]. by rewrite IH. Qed.

(** The telescope loop on the calibrated event: the rows of the passes
    that completed, in order. *)
Lemma tel_loop_rows event d tels s s' source w :
  self_event_source s = Some source →
  self_writer s = Some w →
  all_complete
    (process_tel {| r0 := r0 event; mc := mc event;
                    dl0 := dl0 event; dl1 := d |}) tels s s' →
  self_event_source s' = Some source ∧ self_writer s' = Some w
  ∧ ∃ new, rows_of (filename w) s' = rows_of (filename w) s ++ new
           ∧ Forall2 (row_of_pair source (group_name w)) new
               (map (pair event) tels).
Proof.
  revert s. induction tels as [|t tels IH]; intros s Hsrc Hw; simpl.
  - intros ->. split; [done|]. split; [done|].
    exists []. by rewrite app_nil_r.
  - intros (s1 & Ht & Hrest).
    destruct (process_tel_ok _ _ _ _ _ _ Hsrc Hw Ht)
      as (Hsrc1 & Hw1 & row & E1 & Hrow).
    destruct (IH s1 Hsrc1 Hw1 Hrest) as (Hsrc' & Hw' & new & E2 & Hnew).
    split; [done|]. split; [done|].
    exists (row :: new). split.
    + by rewrite E2, E1, <- app_assoc.
    + constructor; [exact Hrow|exact Hnew].
Qed.

(** A pass of the event loop that raises has written the rows of the
    telescopes before the one it raised at, and no other. *)
Lemma process_event_raise_rows event s e s' source w :
  self_event_source s = Some source →
  self_writer s = Some w →
  process_event event s = (Raise e, s') →
  ∃ new done,
    rows_of (filename w) s' = rows_of (filename w) s ++ new
    ∧ Forall2 (row_of_pair source (group_name w)) new (map (pair event) done)
    ∧ done `prefix_of` tels_with_data (dl0 event).
Proof.
  intros Hsrc Hw. rewrite process_event_eq.
  destruct (self_calibrator s) as [cal|].
  - destruct (CameraCalibrator_apply cal event (heap s)) as [[d|e1] h].
    + intros Hloop.
      apply for_each_raise_iff in Hloop
        as (pre & t & post & s1 & Htels & Hpre & Ht).
      destruct (tel_loop_rows event d pre (set_heap h s) s1 source w
                  Hsrc Hw Hpre) as (_ & _ & new & Hnew & Hrows).
      exists new, pre. split; [|split; [exact Hrows|by exists (t :: post)]].
      apply process_tel_raise_disk in Ht.
      unfold rows_of in Hnew |- *. by rewrite Ht.
    + intros [= _ <-]. exists [], []. rewrite app_nil_r.
      split; [done|]. split; [constructor|].
      by exists (tels_with_data (dl0 event)).
  - intros [= _ <-]. exists [], []. rewrite app_nil_r.
    split; [done|]. split; [constructor|].
    by exists (tels_with_data (dl0 event)).
Qed.

(** The event loop, whatever its outcome: the rows it has written are
    those of the pairs it got through, in order; of all of them when it
    completes. *)
Lemma event_loop_rows source w evs s r s' :
  self_event_source s = Some source →
  self_writer s = Some w →
  for_each evs process_event s = (r, s') →
  ∃ new done,
    rows_of (filename w) s' = rows_of (filename w) s ++ new
    ∧ Forall2 (row_of_pair source (group_name w)) new done
    ∧ done `prefix_of`
        flat_map (λ event, map (pair event) (tels_with_data (dl0 event))) evs
    ∧ (r = Ok tt →
       done = flat_map (λ event, map (pair event) (tels_with_data (dl0 event)))
                evs).
Proof.
  intros Hsrc Hw Hrun. destruct r as [[]|e].
  - destruct (for_each_rows source w
                (λ event, map (pair event) (tels_with_data (dl0 event)))
                evs process_event
                (λ x t t' H1 H2 H3, process_event_ok x t t' source w H1 H2 H3)
                s s' Hsrc Hw Hrun) as (_ & _ & new & Hnew & Hrows).
    exists new, (flat_map (λ event,
                             map (pair event) (tels_with_data (dl0 event)))
                   evs).
    by repeat split.
  - apply for_each_raise_iff in Hrun
      as (pre & event & post & s1 & -> & Hpre & Hevent).
    apply for_each_ok_iff in Hpre.
    destruct (for_each_rows source w
                (λ event, map (pair event) (tels_with_data (dl0 event)))
                pre process_event
                (λ x t t' H1 H2 H3, process_event_ok x t t' source w H1 H2 H3)
                s s1 Hsrc Hw Hpre) as (Hsrc1 & Hw1 & new1 & E1 & F1).
    destruct (process_event_raise_rows _ _ _ _ _ _ Hsrc1 Hw1 Hevent)
      as (new2 & done & E2 & F2 & [rest Hrest]).
    exists (new1 ++ new2),
      (flat_map (λ event, map (pair event) (tels_with_data (dl0 event))) pre
       ++ map (pair event) done).
    split; [by rewrite E2, E1, app_assoc|].
    split; [by apply Forall2_app|].
    split; [|discriminate].
    rewrite flat_map_app. simpl. rewrite Hrest, map_app.
    exists (map (pair event) rest
            ++ flat_map (λ event, map (pair event) (tels_with_data (dl0 event)))
                 post).
    by rewrite <- !app_assoc.
Qed.

(** [start] is the two loops around the body of the telescope loop: every
    image of a telescope with data of an event of the source goes through
    [process_tel], and nothing else is processed. *)
Lemma start_loops (self : Traits) s source :
  self_event_source s = Some source →
  start self s
  = for_each (events source)
      (λ event,
         calibrator <- attr self_calibrator ;;
         event <- CameraCalibrator_call calibrator event ;;
         for_each (tels_with_data (dl0 event)) (process_tel event))
      (set_log (log s ++ ["Loop on events..."]) s).
Proof. intros Hsrc. by rewrite start_unfold, Hsrc. Qed.

(** C2.  The array handed to [hillas_parameters] is the cleaned copy, not
    the image.  Every pass of the telescope loop that completes has read
    the image of its telescope, got its mask from [tailcuts_clean], and
    written a row whose Hillas record is [hillas_parameters] of an array
    [cleaned] of the image's length that is zero at every pixel outside
    the mask and the image at every pixel inside.  And whenever the
    lookups at the head of the body succeed and the mask is computed, the
    pass is what [hillas_parameters] makes of that cleaned array, put at a
    new location: its exception when it raises, the write of its record
    when it returns one.  These passes are all that [start] does with the
    images: it is the loop over the events of the source of the
    calibration followed by the loop of such passes over the telescopes
    with data. *)
Theorem hillas_on_cleaned_image (self : Traits) :
  (∀ event tel_id s s',
     process_tel event tel_id s = (Ok tt, s') →
     ∃ source telescope d px mask cleaned params w,
       located s event tel_id source telescope d
       ∧ heap s !! image d = Some px
       ∧ tailcuts_clean (geometry (camera telescope)) px 10 5 = Ok mask
       ∧ length cleaned = length px
       ∧ (∀ i, mask !! i = Some false → cleaned !! i = Some pixel_zero)
       ∧ (∀ i, mask !! i = Some true → cleaned !! i = px !! i)
       ∧ hillas_parameters (geometry (camera telescope)) cleaned = Ok params
       ∧ self_writer s = Some w
       ∧ rows_of (filename w) s'
         = rows_of (filename w) s ++ [row_written w telescope event params])
  ∧ (∀ event tel_id s source telescope d px mask,
       located s event tel_id source telescope d →
       heap s !! image d = Some px →
       tailcuts_clean (geometry (camera telescope)) px 10 5 = Ok mask →
       ∃ cleaned s1,
         length cleaned = length px
         ∧ (∀ i, mask !! i = Some false → cleaned !! i = Some pixel_zero)
         ∧ (∀ i, mask !! i = Some true → cleaned !! i = px !! i)
         ∧ s1 = set_heap (<[fresh (dom (heap s)) := cleaned]> (heap s)) s
         ∧ process_tel event tel_id s
           = match hillas_parameters (geometry (camera telescope)) cleaned with
             | Raise e => (Raise e, s1)
             | Ok params =>
                 (writer <- attr self_writer ;;
                  HDF5TableWriter_write writer
                    (camera_name (geometry (camera telescope)))
                    [R0 (r0 event); MC (mc event); Hillas params]) s1
             end)
  ∧ (∀ s source,
       self_event_source s = Some source →
       start self s
       = for_each (events source)
           (λ event,
              calibrator <- attr self_calibrator ;;
              event <- CameraCalibrator_call calibrator event ;;
              for_each (tels_with_data (dl0 event)) (process_tel event))
           (set_log (log s ++ ["Loop on events..."]) s)).
Proof.
  assert (∀ (mask : list bool) (px : list pixel),
            length mask = length px →
            length (cleaned_pixels mask px) = length px
            ∧ (∀ i, mask !! i = Some false →
                    cleaned_pixels mask px !! i = Some pixel_zero)
            ∧ (∀ i, mask !! i = Some true →
                    cleaned_pixels mask px !! i = px !! i)) as Hcleaned.
  { intros mask px Hlen. split; [by apply cleaned_pixels_length|].
    split; intros i Hi; rewrite cleaned_pixels_lookup, Hi.
    - destruct (px !! i) as [x|] eqn:Hx; [done|].
      apply lookup_lt_Some in Hi. apply lookup_ge_None in Hx. lia.
    - by destruct (px !! i). }
  split; [|split; [|apply start_loops]].
  - intros event tel_id s s' Hrun.
    destruct (process_tel_steps _ _ _ _ Hrun)
      as (source & telescope & d & c & s1 & params & w
          & Hloc & Hclean & Hparams & Hw & _ & ->).
    destruct (clean_image_ok _ _ _ _ _ Hclean)
      as (px & mask & Hpx & Hmask & Hlen & -> & ->).
    rewrite parametrise_eq in Hparams. simpl in Hparams, Hw.
    rewrite lookup_insert_eq in Hparams. injection Hparams as Hparams.
    destruct (Hcleaned mask px Hlen) as (H1 & H2 & H3).
    exists source, telescope, d, px, mask, (cleaned_pixels mask px), params, w.
    repeat split; try done; try apply Hloc.
    unfold row_written. by rewrite rows_of_write.
  - intros event tel_id s source telescope d px mask (Hsrc & Htel & Hd)
      Hpx Hmask.
    pose proof (tailcuts_clean_length _ _ _ _ _ Hmask) as Hlen.
    destruct (Hcleaned mask px Hlen) as (H1 & H2 & H3).
    exists (cleaned_pixels mask px),
      (set_heap (<[fresh (dom (heap s)) := cleaned_pixels mask px]> (heap s))
         s).
    repeat split; try done.
    rewrite process_tel_eq, Hsrc, Htel, Hd, clean_image_eq, Hpx, Hmask.
    cbn zeta. destruct (decide (length mask = length px)); [|done].
    rewrite parametrise_eq. cbn [heap set_heap].
    rewrite lookup_insert_eq. unfold bind, attr.
    destruct (hillas_parameters _ _); [|done].
    cbn [self_writer set_heap]. by destruct (self_writer s).
Qed.

(** C5.  The writer is closed at the end of every run.  Whatever the state
    a run starts in and however it ends, the tool's writer (if it has one)
    is closed when [run] is over; and once [setup] has opened the writer of
    the output file, it is this writer that the tool is left with, closed,
    whether [start] completes or raises.  The writer is the only thing the
    run opens: from a new process, a run touches no file but the output
    file.  In the three methods: [setup], when it completes, has opened
    the writer of the output file; [start] neither closes the writer nor
    opens another; [finish] closes the writer it finds. *)
Theorem writer_released_on_every_path (self : Traits) :
  (∀ s w, self_writer (run self s).2 = Some w → is_open w = false)
  ∧ (∀ s s1,
       setup self s = (Ok tt, s1) →
       self_writer (run self s).2
       = Some {| filename := outfile self; group_name := "image_infos";
                 is_open := false |})
  ∧ (∀ d g, g ≠ outfile self → disk (run self (boot d)).2 !! g = d !! g)
  ∧ (∀ s s1,
       setup self s = (Ok tt, s1) →
       self_writer s1
       = Some {| filename := outfile self; group_name := "image_infos";
                 is_open := true |})
  ∧ (∀ s, self_writer (start self s).2 = self_writer s)
  ∧ (∀ s w,
       self_writer s = Some w →
       (finish s).1 = Ok tt
       ∧ self_writer (finish s).2
         = Some {| filename := filename w; group_name := group_name w;
                   is_open := false |}).
Proof.
  assert (∀ s s1, setup self s = (Ok tt, s1) →
            self_writer s1
            = Some {| filename := outfile self; group_name := "image_infos";
                      is_open := true |}) as Hsetup_writer.
  { intros s s1 Hsetup.
    destruct (setup_ok_inv _ _ _ Hsetup) as (source & Hsrc & Hcreate).
    destruct (setup_ok self s source Hsrc Hcreate)
      as (s1' & Hsetup' & _ & _ & Hw & _).
    rewrite Hsetup in Hsetup'. by injection Hsetup' as <-. }
  repeat apply conj.
  - intros s w. rewrite run_eq.
    destruct (setup self s) as [[[]|e] s1].
    + destruct (start self s1) as [[[]|e] s2].
      * rewrite finish_eq. destruct (self_writer s2) as [w2|] eqn:Hw2; simpl.
        -- by intros [= <-].
        -- by rewrite Hw2.
      * simpl. rewrite release_writer_eq. simpl.
        destruct (self_writer s2) as [w2|] eqn:Hw2; simpl.
        -- by intros [= <-].
        -- by rewrite Hw2.
    + simpl. rewrite release_writer_eq. simpl.
      destruct (self_writer s1) as [w1|] eqn:Hw1; simpl.
      * by intros [= <-].
      * by rewrite Hw1.
  - intros s s1 Hsetup. rewrite run_eq, Hsetup.
    pose proof (writes_writer _ _ _ (start_writes self s1)) as Hstart.
    rewrite (Hsetup_writer s s1 Hsetup) in Hstart.
    destruct (start self s1) as [[[]|e] s2]; simpl in Hstart.
    + by rewrite finish_eq, Hstart.
    + simpl. by rewrite release_writer_eq, Hstart.
  - intros d g. apply run_other_files.
  - exact Hsetup_writer.
  - intros s. apply (writes_writer _ _ _ (start_writes self s)).
  - intros s w Hw. by rewrite finish_eq, Hw.
Qed.

(** C8.  Where a row goes and what it holds.  In a new process, whatever
    the outcome of [setup] and [start], the tool's writer (if it has one)
    writes to the group image_infos of the output file, and the rows of
    that file are, one for one and in order, those of the events and
    telescopes with data the loops got through (all of them when [start]
    completes): the row of an event and a telescope is in that group, in
    the table named after the camera of that very telescope as the
    subarray describes it, and holds three containers, the event's raw
    container, its simulation container and a Hillas record, in this
    order.  The row comes from the one [write] of the body of the
    telescope loop: a pass that completes has appended exactly one row, in
    the table of the camera of the telescope [tel_id], whose Hillas record
    is the parametrisation of the cleaned image of that telescope, and has
    touched no other file; a pass that raises has written nothing. *)
Theorem rows_keyed_by_camera_name (self : Traits) :
  (∀ d w,
     self_writer ((setup self ;; start self) (boot d)).2 = Some w →
     group_name w = "image_infos"
     ∧ filename w = outfile self
     ∧ ∃ source done,
         EventSource_from_url (infile self) = Ok source
         ∧ done `prefix_of` event_telescope_pairs source
         ∧ (((setup self ;; start self) (boot d)).1 = Ok tt →
            done = event_telescope_pairs source)
         ∧ Forall2 (row_of_pair source "image_infos")
             (rows_of (outfile self) ((setup self ;; start self) (boot d)).2)
             done)
  ∧ (∀ event tel_id s s',
       process_tel event tel_id s = (Ok tt, s') →
       ∃ source telescope d c s1 params w,
         located s event tel_id source telescope d
         ∧ clean_image (geometry (camera telescope)) (image d) s = (Ok c, s1)
         ∧ parametrise (geometry (camera telescope)) c s1 = (Ok params, s1)
         ∧ self_writer s = Some w
         ∧ rows_of (filename w) s'
           = rows_of (filename w) s
             ++ [{| row_group := group_name w;
                    row_table := camera_name (geometry (camera telescope));
                    row_containers :=
                      [R0 (r0 event); MC (mc event); Hillas params] |}]
         ∧ ∀ g, g ≠ filename w → disk s' !! g = disk s !! g)
  ∧ (∀ event tel_id s e s',
       process_tel event tel_id s = (Raise e, s') → disk s' = disk s).
Proof.
  repeat apply conj.
  - intros d w.
    destruct (setup self (boot d)) as [[[]|e] s1] eqn:Hsetup.
    + destruct (setup_ok_inv _ _ _ Hsetup) as (source & Hsrc & Hcreate).
      destruct (setup_ok self (boot d) source Hsrc Hcreate)
        as (s1' & Hsetup' & Hes & _ & Hw & Hdisk & _).
      rewrite Hsetup in Hsetup'. injection Hsetup' as <-.
      rewrite (bind_ok _ _ _ _ _ Hsetup).
      rewrite (writes_writer _ _ _ (start_writes self s1)), Hw.
      intros [= <-]. simpl. split; [done|]. split; [done|].
      rewrite start_unfold, Hes.
      destruct (for_each _ _ _) as [r s2] eqn:Hloop.
      destruct (event_loop_rows source _ _
                  (set_log (log s1 ++ ["Loop on events..."]) s1) _ _
                  Hes Hw Hloop)
        as (new & done & Hnew & Hrows & Hprefix & Hall).
      simpl in Hnew, Hrows.
      exists source, done. split; [done|]. split; [exact Hprefix|].
      split.
      * simpl. intros ->. by apply Hall.
      * simpl. rewrite Hnew. unfold rows_of at 1. simpl. rewrite Hdisk.
        by rewrite lookup_insert_eq.
    + rewrite (bind_raise _ _ _ _ _ Hsetup). simpl.
      apply setup_raise in Hsetup as (Hw & _). rewrite Hw. discriminate.
  - intros event tel_id s s' Hrun.
    destruct (process_tel_steps _ _ _ _ Hrun)
      as (source & telescope & d & c & s1 & params & w
          & Hloc & Hclean & Hparams & Hw & _ & ->).
    destruct (clean_image_state (geometry (camera telescope)) (image d) s)
      as [h Hh].
    rewrite Hclean in Hh. simpl in Hh. subst s1. simpl in Hw.
    exists source, telescope, d, c, (set_heap h s), params, w.
    repeat split; try done; try apply Hloc.
    + unfold row_written. by rewrite rows_of_write.
    + intros g Hg. simpl. by rewrite lookup_insert_ne.
  - intros event tel_id s e s'. apply process_tel_raise_disk.
Qed.
End Steps.

(** ** The thresholds of the cleaning *)

Section FixedThresholds.
Context `{P : Payload}.

(** C3.  The mask of every image is computed at the picture threshold 10
    and the boundary threshold 5, the same for every event and telescope,
    and at no other thresholds.  Once the lookups at the head of the body
    of the telescope loop have found the image, the pass is decided by
    [tailcuts_clean] of that image at 10 and 5: it raises what that call
    raises, and otherwise goes on with the mask that call returns; a pass
    that completes has stored the image cleaned with that mask.  Hence a
    pass, and [start], are the same under any two pixel selections that
    give the same masks at 10 and 5, whatever they do at other
    thresholds.  These passes are all that [start] does with the images:
    it is the loop over the events of the source of the calibration
    followed by the loop of such passes over the telescopes with data. *)
Theorem thresholds_are_10_and_5 (T : Toolkit)
    (select : CameraGeometry → list pixel → Z → Z → result (nat → bool))
    (self : Traits) :
  (∀ geom px,
     @tailcuts_clean P (with_tailcuts T select) geom px 10 5
     = @tailcuts_clean P T geom px 10 5) →
  (∀ s, @start P (with_tailcuts T select) self s = @start P T self s)
  ∧ (∀ event tel_id s,
       @process_tel P (with_tailcuts T select) event tel_id s
       = @process_tel P T event tel_id s)
  ∧ (∀ event tel_id s source telescope d px,
       located s event tel_id source telescope d →
       heap s !! image d = Some px →
       @process_tel P T event tel_id s
       = match @tailcuts_clean P T (geometry (camera telescope)) px 10 5 with
         | Raise e => (Raise e, s)
         | Ok mask =>
             (cleaned <- ndarray_copy (image d) ;;
              ndarray_setitem_bool cleaned (ndarray_invert mask) pixel_zero ;;
              params <- @parametrise P T (geometry (camera telescope))
                          cleaned ;;
              writer <- attr self_writer ;;
              @HDF5TableWriter_write P T writer
                (camera_name (geometry (camera telescope)))
                [R0 (r0 event); MC (mc event); Hillas params]) s
         end)
  ∧ (∀ event tel_id s s',
       @process_tel P T event tel_id s = (Ok tt, s') →
       ∃ source telescope d px mask,
         located s event tel_id source telescope d
         ∧ heap s !! image d = Some px
         ∧ @tailcuts_clean P T (geometry (camera telescope)) px 10 5 = Ok mask
         ∧ heap s' !! fresh (dom (heap s)) = Some (cleaned_pixels mask px))
  ∧ (∀ s source,
       self_event_source s = Some source →
       @start P T self s
       = for_each (events source)
           (λ event,
              calibrator <- attr self_calibrator ;;
              event <- @CameraCalibrator_call P T calibrator event ;;
              for_each (tels_with_data (dl0 event)) (@process_tel P T event))
           (set_log (log s ++ ["Loop on events..."]) s)).
Proof.
  intros Hsame.
  assert (∀ event tel_id s,
            @process_tel P (with_tailcuts T select) event tel_id s
            = @process_tel P T event tel_id s) as Htel.
  { intros event tel_id s. by apply process_tel_with_tailcuts. }
  repeat apply conj.
  - intros s. rewrite !start_unfold.
    destruct (self_event_source s) as [source|]; [|done].
    apply for_each_ext. intros event s0.
    unfold process_event, bind, attr.
    destruct (self_calibrator s0) as [cal|]; [|done].
    unfold CameraCalibrator_call.
    change (@CameraCalibrator_apply P (with_tailcuts T select))
      with (@CameraCalibrator_apply P T).
    destruct (CameraCalibrator_apply cal event (heap s0)) as [[d|e] h];
      [|done].
    apply for_each_ext. intros tel_id s3. apply Htel.
  - exact Htel.
  - intros event tel_id s source telescope d px (Hsrc & Htd & Hd) Hpx.
    unfold process_tel, clean_image, bind, attr, getitem, lift.
    rewrite Hsrc, Htd, Hd. unfold ndarray_read at 1. rewrite Hpx.
    destruct (tailcuts_clean _ px 10 5) as [mask|e]; [|done].
    destruct (ndarray_copy (image d) s) as [[c|e] s1]; [|done].
    by destruct (ndarray_setitem_bool c _ _ s1) as [[[]|e] s2].
  - intros event tel_id s s' Hrun.
    destruct (process_tel_steps _ _ _ _ Hrun)
      as (source & telescope & d & c & s1 & params & w
          & Hloc & Hclean & _ & _ & _ & ->).
    destruct (clean_image_ok _ _ _ _ _ Hclean)
      as (px & mask & Hpx & Hmask & _ & -> & ->).
    exists source, telescope, d, px, mask.
    repeat split; try done; try apply Hloc.
    simpl. apply lookup_insert_eq.
  - apply start_loops.
Qed.

End FixedThresholds.


(** * The statements on the small toolkit

    Each statement above that has a premise, applied to a run of the small
    toolkit on which the premise holds. *)

Section ToyRuns.
Import Toy.

(** [~True] and [~False] in Python. *)
Example py_invert_true : py_invert true = (-2)%Z.
Proof. reflexivity. Qed.

Example py_invert_false : py_invert false = (-1)%Z.
Proof. reflexivity. Qed.

(** The run on the file with two events: three rows, nothing displayed,
    the writer closed; the stale row of the old output file is gone. *)
Example run_on_gamma :
  let end_state := (run (traits "gamma.simtel" true) (boot stale_disk)).2 in
  map (λ row, (row_group row, row_table row, row_containers row))
      (rows_of "output.h5" end_state)
  = [("image_infos", "LSTCam", [R0 0; MC 100%Z; Hillas 46%Z]);
     ("image_infos", "NectarCam", [R0 0; MC 100%Z; Hillas 47%Z]);
     ("image_infos", "LSTCam", [R0 1; MC 250%Z; Hillas 51%Z])]
  ∧ display end_state = []
  ∧ log end_state
    = ["Configure EventSource..."; "Loop on events..."; "End of job."].
Proof. vm_compute. done. Qed.

(** What the loop of [start] would display had tqdm been given a false
    [disable]: the bar when created, and a refresh after each event. *)
Example tqdm_enabled_on_gamma :
  map bar_done
    (display
       (tqdm (events gamma_source) "EventWriter" (max_events gamma_source)
          0%Z process_event
          (setup (traits "gamma.simtel" true) (boot ∅)).2).2)
  = [0; 1; 2].
Proof. vm_compute. reflexivity. Qed.

(** C1 on the file with two events, seen by two telescopes and by one:
    three rows. *)
Lemma rows_written_count_witness :
  EventSource_from_url "gamma.simtel" = Ok gamma_source
  ∧ length (rows_of "output.h5"
              ((setup (traits "gamma.simtel" true) ;;
                start (traits "gamma.simtel" true)) (boot stale_disk)).2)
    = 3.
Proof.
  split; [reflexivity|].
  destruct (rows_written_count (traits "gamma.simtel" true) (boot stale_disk)
              gamma_source) as [Hcount _]; [reflexivity|].
  apply Hcount. vm_compute. reflexivity.
Defined.

(** C2 on the image of six pixels: the two pixels outside the mask are
    zero in the array the Hillas record is computed on. *)
Lemma hillas_on_cleaned_image_witness :
  ∃ cleaned s1,
    length cleaned = 6
    ∧ (∀ i, [true; true; false; false; true; true] !! i = Some false →
            cleaned !! i = Some 0%Z)
    ∧ process_tel seen_by_1 1 ready_with_image
      = match total_intensity lst_cam cleaned with
        | Raise e => (Raise e, s1)
        | Ok params =>
            (writer <- attr self_writer ;;
             HDF5TableWriter_write writer "LSTCam"
               [R0 7; MC 80%Z; Hillas params]) s1
        end.
Proof.
  destruct (hillas_on_cleaned_image (traits "gamma.simtel" true))
    as (_ & Hpass & _).
  destruct (Hpass seen_by_1 1 ready_with_image
              gamma_source (telescope "LSTCam") {| image := 2%positive |}
              [12; 7; 3; 4; 21; 6]%Z [true; true; false; false; true; true])
    as (cleaned & s1 & Hlen & Hzero & _ & _ & Hrun).
  - repeat split; vm_compute; reflexivity.
  - vm_compute. reflexivity.
  - vm_compute. reflexivity.
  - exists cleaned, s1. split; [exact Hlen|]. split; [exact Hzero|exact Hrun].
Defined.

(** C3 on a selection that raises at any thresholds but 10 and 5: [start]
    is the same. *)
Lemma thresholds_are_10_and_5_witness :
  @start payload (with_tailcuts toolkit select_at_10_5_only)
    (traits "gamma.simtel" true)
    (setup (traits "gamma.simtel" true) (boot ∅)).2
  = @start payload toolkit (traits "gamma.simtel" true)
      (setup (traits "gamma.simtel" true) (boot ∅)).2.
Proof.
  destruct (thresholds_are_10_and_5 toolkit select_at_10_5_only
              (traits "gamma.simtel" true))
    as [Hstart _].
  - intros geom px. reflexivity.
  - apply Hstart.
Defined.

(** C5 on the file whose second event cannot be calibrated: the run ends
    there, with the writer closed. *)
Lemma writer_released_on_every_path_witness :
  (run (traits "broken.simtel" true) (boot ∅)).1
  = Raise (LibraryError "calibration")
  ∧ self_writer (run (traits "broken.simtel" true) (boot ∅)).2
    = Some {| filename := "output.h5"; group_name := "image_infos";
              is_open := false |}.
Proof.
  split; [vm_compute; reflexivity|].
  destruct (writer_released_on_every_path (traits "broken.simtel" true))
    as (_ & Hclosed & _).
  apply (Hclosed (boot ∅) ready_on_broken). vm_compute. reflexivity.
Defined.

(** C7 on a file that does not open, and on the event that cannot be
    calibrated. *)
Lemma failures_propagate_witness :
  (setup (traits "missing.simtel" true) (boot stale_disk)).1 = Raise OSError
  ∧ process_event (raw_event 99 0 [1]) ready_on_broken
    = (Raise (LibraryError "calibration"),
       set_heap (heap ready_on_broken) ready_on_broken).
Proof.
  split.
  - destruct (failures_propagate (traits "missing.simtel" true))
      as (Hsetup & _).
    destruct (Hsetup (boot stale_disk) OSError) as (Hraise & _);
      [reflexivity|exact Hraise].
  - destruct (failures_propagate (traits "broken.simtel" true))
      as (_ & _ & _ & _ & Hevent & _).
    apply Hevent. right. exists {| cal_subarray := lst_subarray |}.
    split; [vm_compute; reflexivity|]. left.
    exists (heap ready_on_broken). split; [vm_compute; reflexivity|].
    reflexivity.
Defined.

(** C8 on the file with two events: the three rows are those of the three
    pairs of an event and a telescope, in order. *)
Lemma rows_keyed_by_camera_name_witness :
  ∃ source done,
    EventSource_from_url "gamma.simtel" = Ok source
    ∧ done `prefix_of` event_telescope_pairs source
    ∧ Forall2 (row_of_pair source "image_infos")
        (rows_of "output.h5"
           ((setup (traits "gamma.simtel" true) ;;
             start (traits "gamma.simtel" true)) (boot stale_disk)).2)
        done.
Proof.
  destruct (rows_keyed_by_camera_name (traits "gamma.simtel" true))
    as (Hrows & _).
  destruct (Hrows stale_disk
              {| filename := "output.h5"; group_name := "image_infos";
                 is_open := true |})
    as (_ & _ & source & done & Hsrc & Hprefix & _ & Hall).
  - vm_compute. reflexivity.
  - exists source, done. split; [exact Hsrc|]. split; [exact Hprefix|exact Hall].
Defined.

(** C9 on one image of six pixels. *)
Lemma mask_and_image_same_length_witness :
  length [true; true; false; false; true; true] = 6
  ∧ ∃ c, clean_image lst_cam 2%positive one_image
         = (Ok c,
            set_heap
              (<[c := cleaned_pixels [true; true; false; false; true; true]
                        [12; 7; 3; 4; 21; 6]%Z]> (heap one_image))
              one_image).
Proof.
  destruct (mask_and_image_same_length lst_cam 2%positive one_image
              [12; 7; 3; 4; 21; 6]%Z [true; true; false; false; true; true])
    as (Hlen & _ & _ & Hclean & _).
  - vm_compute. reflexivity.
  - vm_compute. reflexivity.
  - split; [exact Hlen|exact Hclean].
Defined.

(** C10 on one image: it is as it was after the body of the telescope
    loop and after cleaning. *)
Lemma cleaning_works_on_a_copy_witness :
  heap (process_tel seen_by_1 1 one_image).2 !! 2%positive
  = Some [12; 7; 3; 4; 21; 6]%Z
  ∧ heap (clean_image lst_cam 2%positive one_image).2 !! 2%positive
    = Some [12; 7; 3; 4; 21; 6]%Z.
Proof.
  destruct (cleaning_works_on_a_copy lst_cam seen_by_1 1 2%positive one_image
              [12; 7; 3; 4; 21; 6]%Z) as (Htel & Hclean & _).
  - vm_compute. reflexivity.
  - split; [exact Htel|exact Hclean].
Defined.

(** C6 on a disk with a stale output file and on an empty disk: the same
    output file. *)
Lemma rerun_is_idempotent_witness :
  disk (run (traits "gamma.simtel" true) (boot stale_disk)).2 !! "output.h5"
  = disk (run (traits "gamma.simtel" true) (boot ∅)).2 !! "output.h5".
Proof.
  destruct (rerun_is_idempotent (traits "gamma.simtel" true) ∅)
    as (_ & _ & _ & Hsame).
  apply (Hsame stale_disk). vm_compute. eauto.
Defined.
(** X1 on the file with two events. *)
Lemma rows_in_reading_order_witness :
  Forall2 (row_of_pair gamma_source "image_infos")
    (rows_of "output.h5"
       ((setup (traits "gamma.simtel" true) ;;
         start (traits "gamma.simtel" true)) (boot stale_disk)).2)
    [(raw_event 0 100 [1; 2], 1); (raw_event 0 100 [1; 2], 2);
     (raw_event 1 250 [1], 1)].
Proof.
  apply (rows_in_reading_order (traits "gamma.simtel" true) (boot stale_disk)
           gamma_source).
  - reflexivity.
  - vm_compute. reflexivity.
Defined.

(** X2 on the file whose second event cannot be calibrated: the two rows
    of the first event stay. *)
Lemma rows_before_failure_stay_witness :
  (start (traits "broken.simtel" true) ready_on_broken).1
  = Raise (LibraryError "calibration")
  ∧ length (rows_of "output.h5"
              (start (traits "broken.simtel" true) ready_on_broken).2) = 2.
Proof.
  destruct (rows_before_failure_stay (traits "broken.simtel" true)
              ready_on_broken broken_source
              {| filename := "output.h5"; group_name := "image_infos";
                 is_open := true |}
              [raw_event 0 100 [1; 2]] (raw_event 99 0 [1])
              [raw_event 2 30 [2]]
              (for_each [raw_event 0 100 [1; 2]] process_event
                 (set_log (log ready_on_broken ++ ["Loop on events..."])
                    ready_on_broken)).2
              (LibraryError "calibration")
              (process_event (raw_event 99 0 [1])
                 (for_each [raw_event 0 100 [1; 2]] process_event
                    (set_log (log ready_on_broken ++ ["Loop on events..."])
                       ready_on_broken)).2).2)
    as (Hraise & _ & _).
  - vm_compute. reflexivity.
  - vm_compute. reflexivity.
  - reflexivity.
  - vm_compute. reflexivity.
  - vm_compute. reflexivity.
  - split; [exact Hraise|]. vm_compute. reflexivity.
Defined.

(** X5 on the file with no event, over a stale output file. *)
Lemma no_events_give_an_empty_file_witness :
  (@bind payload _ _ (@setup payload toolkit_with_empty
                        (traits "empty.simtel" true))
     (λ _, @start payload toolkit_with_empty (traits "empty.simtel" true))
     (boot stale_disk)).1 = Ok tt
  ∧ disk (@bind payload _ _ (@setup payload toolkit_with_empty
                               (traits "empty.simtel" true))
            (λ _, @start payload toolkit_with_empty
                    (traits "empty.simtel" true))
            (boot stale_disk)).2 !! "output.h5" = Some [].
Proof.
  destruct (@no_events_give_an_empty_file payload toolkit_with_empty
              (traits "empty.simtel" true) (boot stale_disk) empty_source)
    as (Hok & Hdisk & _).
  - reflexivity.
  - reflexivity.
  - reflexivity.
  - split; [exact Hok|]. rewrite Hdisk. vm_compute. reflexivity.
Defined.

(** X6 on a disk holding another file. *)
Lemma only_the_outfile_is_touched_witness :
  disk ((setup (traits "gamma.simtel" true) ;;
         start (traits "gamma.simtel" true))
          (boot {[ "notes.h5" := [] ]})).2 !! "notes.h5"
  = Some [].
Proof.
  destruct (only_the_outfile_is_touched (traits "gamma.simtel" true)
              (boot {[ "notes.h5" := [] ]}) "notes.h5") as [Hsame _].
  - simpl. discriminate.
  - rewrite Hsame. vm_compute. reflexivity.
Defined.

(** X3 on the file with two events, in a new process. *)
Lemma each_method_logs_once_witness :
  log ((setup (traits "gamma.simtel" true) ;;
        start (traits "gamma.simtel" true)) (boot ∅)).2
  = ["Configure EventSource..."; "Loop on events..."].
Proof.
  destruct (each_method_logs_once (traits "gamma.simtel" true) (boot ∅))
    as (_ & _ & _ & Hboth).
  apply Hboth.
  - vm_compute. eexists. reflexivity.
  - reflexivity.
Defined.

(** X9 on a faint and on a bright image. *)
Lemma cleaning_at_the_extremes_witness :
  heap (clean_image lst_cam 2%positive faint_and_bright).2
    !! fresh (dom (heap faint_and_bright))
  = Some [0; 0; 0]%Z
  ∧ heap (clean_image lst_cam 5%positive faint_and_bright).2
      !! fresh (dom (heap faint_and_bright))
    = Some [30; 40; 50]%Z.
Proof.
  split.
  - destruct (cleaning_at_the_extremes lst_cam 2%positive faint_and_bright
                (fresh (dom (heap faint_and_bright)))
                (clean_image lst_cam 2%positive faint_and_bright).2
                [1; 2; 3]%Z [false; false; false]) as [Hnone _].
    + vm_compute. reflexivity.
    + vm_compute. reflexivity.
    + vm_compute. reflexivity.
    + apply Hnone. repeat constructor.
  - destruct (cleaning_at_the_extremes lst_cam 5%positive faint_and_bright
                (fresh (dom (heap faint_and_bright)))
                (clean_image lst_cam 5%positive faint_and_bright).2
                [30; 40; 50]%Z [true; true; true]) as [_ Hall].
    + vm_compute. reflexivity.
    + vm_compute. reflexivity.
    + vm_compute. reflexivity.
    + apply Hall. repeat constructor.
Defined.

(** X10 on the faint image: no pixel survives, and an image of total
    intensity zero cannot be parametrised. *)
Lemma parametrisation_failure_ends_the_pass_witness :
  (process_tel seen_by_1 1 ready_with_faint).1
  = Raise (LibraryError "HillasParameterizationError")
  ∧ rows_of "output.h5" (process_tel seen_by_1 1 ready_with_faint).2 = [].
Proof.
  destruct (parametrisation_failure_ends_the_pass seen_by_1 1
              ready_with_faint gamma_source (telescope "LSTCam")
              {| image := 2%positive |}
              (fresh (dom (heap ready_with_faint)))
              (clean_image lst_cam 2%positive ready_with_faint).2
              [0; 0; 0]%Z (LibraryError "HillasParameterizationError"))
    as [Hraise Hdisk].
  - vm_compute. reflexivity.
  - vm_compute. reflexivity.
  - vm_compute. reflexivity.
  - vm_compute. reflexivity.
  - vm_compute. reflexivity.
  - reflexivity.
  - rewrite Hraise. split; [reflexivity|]. vm_compute. reflexivity.
Defined.
End ToyRuns.
